(** * GasGuard: the Soroban cost model ([src/cost_model.py])

    A shallow embedding of the reference implementation of the cost models,
    the scoring functions, the hint generator and the analysis pipeline,
    followed by the properties stated about them.

    Number model.  Python [int] is [Z].  Python [float] is embedded as an
    exact rational ([Q]): every arithmetic operation of the source is the
    exact operation on rationals, so the rounding of IEEE-754 doubles is
    not part of this model, and neither is the overflow of their range in
    the arithmetic operators, which needs operands beyond [10^154].  The
    only transcendental of the module, [math.exp], has no rational value;
    its result is kept as a symbolic value [scale * e^exponent] whose
    meaning is given in the real numbers, and its range error is modelled,
    because [e^x] leaves the range of a double already for [x] above
    [709.78].  Python exceptions are the [Err] case of [result]. *)

From Stdlib Require Import ZArith QArith Qround Qabs Lia Lqa Bool List String Ascii.
From Stdlib Require Import DecimalString Reals Qreals Lra.
Import ListNotations.

Local Open Scope Z_scope.
Local Open Scope Q_scope.

(* ------------------------------------------------------------------------- *)
(** ** Exceptions and the error monad *)

(** The exceptions a call can end with.  [ZeroDivisionError],
    [OverflowError] and [KeyError] are raised by the Python operations the
    module uses.  The module itself defines no exception class and has no
    [raise] statement; [ConfigurationError] and [InvalidInputError] are the
    two names the specification uses, present here so that statements about
    them can be written down. *)
Inductive exn : Type :=
| ZeroDivisionError
| OverflowError
| KeyError (key : string)
| ConfigurationError
| InvalidInputError.

Inductive result (A : Type) : Type :=
| Ok (a : A)
| Err (e : exn).
Arguments Ok {A} a.
Arguments Err {A} e.

Definition bind {A B : Type} (r : result A) (k : A -> result B) : result B :=
  match r with
  | Ok a => k a
  | Err e => Err e
  end.

Notation "x <- r ;; k" := (bind r (fun x => k))
  (at level 61, r at next level, right associativity).

Definition is_ok {A : Type} (r : result A) : bool :=
  match r with Ok _ => true | Err _ => false end.

(* ------------------------------------------------------------------------- *)
(** ** The Python operations the module uses *)

Definition Qltb (x y : Q) : bool := negb (Qle_bool y x).

(** [a / b] on two [int]s: true division, [ZeroDivisionError] on [b = 0]. *)
Definition py_truediv (a b : Z) : result Q :=
  if (b =? 0)%Z then Err ZeroDivisionError
  else Ok (inject_Z a / inject_Z b).

(** [math.ceil]. *)
Definition math_ceil (x : Q) : Z := Qceiling x.

(** [int(x)] on a float: truncation towards zero. *)
Definition py_int (x : Q) : Z := Z.quot (Qnum x) (Zpos (Qden x)).

(** [min(a, b)] and [max(a, b)] of two arguments: the first argument is kept
    unless the second is strictly smaller (resp. strictly larger). *)
Definition py_min (a b : Q) : Q := if Qltb b a then b else a.
Definition py_max (a b : Q) : Q := if Qltb a b then b else a.

(** [l.append(x)]. *)
Definition list_append {A : Type} (l : list A) (x : A) : list A := l ++ [x].

(** [len(l)]. *)
Definition len {A : Type} (l : list A) : Z := Z.of_nat (List.length l).

(** A value [scale * e^exponent], the result of an expression built on
    [math.exp]. *)
Record ExpValue : Type := { scale : Q; exponent : Q }.

(** The largest argument whose exponential is a finite double,
    [709.782712893384] to the precision of a double. *)
Definition exp_max_arg : Q := 709782712893384 # 1000000000000.

(** [math.exp(x)].  The functions of the [math] module raise
    [OverflowError] for results that overflow, "for example, exp(1000.0)":
    that is the case of every argument above [exp_max_arg]. *)
Definition math_exp (x : Q) : result ExpValue :=
  if Qle_bool x exp_max_arg then Ok {| scale := 1; exponent := x |}
  else Err OverflowError.

Definition ExpValue_scale (k : Q) (v : ExpValue) : ExpValue :=
  {| scale := k * scale v; exponent := exponent v |}.


(** Rounding to the nearest integer, ties to even: the rounding of the
    format specifications [.0%] and [.1%]. *)
Definition round_half_even (x : Q) : Z :=
  let f := Qfloor x in
  match ((x - inject_Z f) ?= (1 # 2))%Q with
  | Lt => f
  | Gt => (f + 1)%Z
  | Eq => if Z.even f then f else (f + 1)%Z
  end.

(** The integer nearest to the square root of [y], ties to even, for
    [0 <= y]. *)
Definition round_half_even_sqrt (y : Q) : Z :=
  let n := Z.sqrt (Qfloor y) in
  match (y ?= (inject_Z n + (1 # 2)) * (inject_Z n + (1 # 2)))%Q with
  | Lt => n
  | Gt => (n + 1)%Z
  | Eq => if Z.even n then n else (n + 1)%Z
  end.

Definition str_of_Z (n : Z) : string :=
  NilZero.string_of_int (Z.to_int n).

Definition sign_str (x : Q) : string :=
  (if Qltb x 0 then "-" else "")%string.

(** [f"{x:.0%}"]: the percentage with no decimals. *)
Definition format_percent0 (x : Q) : string :=
  (sign_str x ++ str_of_Z (round_half_even (Qabs (100 * x))) ++ "%")%string.

(** The decimal rendering of [r / 10] with one decimal, for [0 <= r]. *)
Definition one_decimal (r : Z) : string :=
  (str_of_Z (r / 10) ++ "." ++ str_of_Z (r mod 10))%string.

(** [f"{math.sqrt(p):.1%}"] for [0 <= p]: the square root as a percentage
    with one decimal.  The square root is not rational in general, so the
    two steps of the source are embedded as one. *)
Definition format_sqrt_percent1 (p : Q) : string :=
  (one_decimal (round_half_even_sqrt (1000000 * p)) ++ "%")%string.

(** A [dict] whose iteration order matters: an association list in
    insertion order; [d[k]] raises [KeyError] on a missing key. *)
Definition dict (V : Type) : Type := list (string * V).

Fixpoint dict_get {V : Type} (d : dict V) (k : string) : result V :=
  match d with
  | [] => Err (KeyError k)
  | (k', v) :: d' => if String.eqb k' k then Ok v else dict_get d' k
  end.

Definition dict_values {V : Type} (d : dict V) : list V := map snd d.
Definition dict_keys {V : Type} (d : dict V) : list string := map fst d.

(* ------------------------------------------------------------------------- *)
(** ** Constants *)

Definition SCORE_WEIGHTS : dict Q :=
  [("cpu", 2 # 5); ("memory", 1 # 5); ("ledger", 2 # 5)]%string.

(** r_entries, r_bytes, w_entries, w_bytes, bw *)
Definition LEDGER_WEIGHTS : list Q := [1 # 5; 1 # 5; 1 # 5; 1 # 5; 1 # 5].

Definition SCALING_FACTOR_MEMORY : Z := 100.

(* ------------------------------------------------------------------------- *)
(** ** Data structures *)

(** Soroban network configuration constants. *)
Record SorobanConfig : Type := {
  (* CPU/Compute limits *)
  txMaxInstructions : Z;
  ledgerMaxInstructions : Z;
  feeRatePerInstructionsIncrement : Z;
  feeCPUPerIncrement : Q;
  txMemoryLimit : Z;
  (* Ledger I/O limits *)
  txMaxReadLedgerEntries : Z;
  txMaxReadBytes : Z;
  txMaxWriteLedgerEntries : Z;
  txMaxWriteBytes : Z;
  ledgerMaxReadLedgerEntries : Z;
  ledgerMaxReadBytes : Z;
  ledgerMaxWriteLedgerEntries : Z;
  ledgerMaxWriteBytes : Z;
  (* Ledger I/O fees *)
  feeReadLedgerEntry : Q;
  feeWriteLedgerEntry : Q;
  feeRead1KB : Q;
  feeWrite1KB : Q;
  (* Bandwidth limits *)
  txMaxSizeBytes : Z;
  ledgerMaxTxsSizeBytes : Z;
  feeTxSize1KB : Q;
  version : string
}.

(** [SorobanConfig()]: the field defaults of the dataclass. *)
Definition default_config : SorobanConfig := {|
  txMaxInstructions := 100000000;
  ledgerMaxInstructions := 1000000000;
  feeRatePerInstructionsIncrement := 10000;
  feeCPUPerIncrement := 1 # 100000;
  txMemoryLimit := 41943040;
  txMaxReadLedgerEntries := 40;
  txMaxReadBytes := 200000;
  txMaxWriteLedgerEntries := 25;
  txMaxWriteBytes := 100000;
  ledgerMaxReadLedgerEntries := 20000;
  ledgerMaxReadBytes := 100000000;
  ledgerMaxWriteLedgerEntries := 10000;
  ledgerMaxWriteBytes := 50000000;
  feeReadLedgerEntry := 1 # 10000;
  feeWriteLedgerEntry := 2 # 10000;
  feeRead1KB := 5 # 100000;
  feeWrite1KB := 1 # 10000;
  txMaxSizeBytes := 100000;
  ledgerMaxTxsSizeBytes := 1000000;
  feeTxSize1KB := 1 # 100000;
  version := "mainnet-v20"
|}.

(** An element of a footprint list.  The dataclass annotates the lists as
    [list[str]], which Python does not enforce: an element can be any
    object. *)
Inductive pyobj : Type :=
| PyStr (s : string)
| PyNone
| PyInt (n : Z).


(** Ledger entry footprint. *)
Record Footprint : Type := {
  readOnly : list pyobj;
  readWrite : list pyobj
}.

(** Soroban transaction resources.  The field [instructions] of the
    dataclass is [res_instructions] here: [instructions] names the field
    of [SimulationResult]. *)
Record SorobanResources : Type := {
  footprint : Footprint;
  res_instructions : Z;
  readBytes : Z;
  writeBytes : Z
}.

(** Result from Soroban RPC simulateTransaction call. *)
Record SimulationResult : Type := {
  instructions : Z;
  memoryBytes : Z;
  resources : SorobanResources;
  transactionSizeBytes : Z
}.

(** CPU cost breakdown. *)
Module CPUCost.
Record t : Type := mk {
  fee : Q;
  normalized : Q;
  ledger_pressure : Q;
  total : Q
}.
End CPUCost.

(** Memory cost breakdown. *)
Module MemoryCost.
Record t : Type := mk {
  bytes_used : Z;
  normalized : Q;
  cost : ExpValue
}.
End MemoryCost.

(** Ledger I/O and bandwidth cost breakdown. *)
Module LedgerCost.
Record t : Type := mk {
  fee : Q;
  normalized : Q;
  breakdown : dict Q
}.
End LedgerCost.

(** Resource efficiency scores (0-100 scale). *)
Module Scores.
Record t : Type := mk {
  cpu : Z;
  memory : Z;
  ledger : Z;
  total : Z
}.
End Scores.

(** The [costs] dictionary of an analysis: its three fixed keys. *)
Module Costs.
Record t : Type := mk {
  cpu : CPUCost.t;
  memory : MemoryCost.t;
  ledger : LedgerCost.t
}.
End Costs.

(** Complete transaction analysis result. *)
Module Analysis.
Record t : Type := mk {
  costs : Costs.t;
  scores : Scores.t;
  hints : list string;
  safety_violations : list string;
  timestamp : Z;
  config_version : string
}.
End Analysis.

(* ------------------------------------------------------------------------- *)
(** ** Helpers *)

(** Linear interpolation helper. *)
Definition _interpolate (val in_min in_max out_min out_max : Q) : Q :=
  if Qeq_bool in_max in_min then out_min
  else
    let ratio := (val - in_min) / (in_max - in_min) in
    out_min + ratio * (out_max - out_min).

(* ------------------------------------------------------------------------- *)
(** ** Cost computation functions *)

(** Compute CPU cost from instruction count. *)
Definition compute_cpu_cost (sim : SimulationResult) (config : SorobanConfig)
  : result CPUCost.t :=
  let instr := instructions sim in
  let limit_tx := txMaxInstructions config in
  let limit_ledger := ledgerMaxInstructions config in
  (* Fee calculation *)
  q <- py_truediv instr (feeRatePerInstructionsIncrement config) ;;
  let fee_increments := math_ceil q in
  let fee := inject_Z fee_increments * feeCPUPerIncrement config in
  (* Utilization *)
  util_tx <- py_truediv instr limit_tx ;;
  util_ledger <- py_truediv instr limit_ledger ;;
  (* Quadratic penalty for disproportionate ledger usage *)
  let ledger_pressure := util_ledger ^ 2 in
  (* Final cost adjusted for pressure *)
  let pressure_weight := 1 # 2 in
  let total_cost := fee * (1 + pressure_weight * ledger_pressure) in
  Ok (CPUCost.mk fee util_tx ledger_pressure total_cost).

(** Compute memory cost from peak memory usage (limit-only, no direct
    fees). *)
Definition compute_memory_cost (sim : SimulationResult) (config : SorobanConfig)
  : result MemoryCost.t :=
  let mem_used := memoryBytes sim in
  let limit := txMemoryLimit config in
  utilization <- py_truediv mem_used limit ;;
  (* Exponential penalty prevents approaching hard limit
     Formula: k * e^(5 * util) *)
  e <- math_exp (5 * utilization) ;;
  let cost_score := ExpValue_scale (inject_Z SCALING_FACTOR_MEMORY) e in
  Ok (MemoryCost.mk mem_used utilization cost_score).

(** [sum(u * w for u, w in zip(us, ws))]: the sum starts from [0] and adds
    the products from left to right. *)
Definition weighted_sum (us ws : list Q) : Q :=
  fold_left (fun acc uw => acc + fst uw * snd uw) (combine us ws) 0.

(** Compute ledger I/O and bandwidth cost. *)
Definition compute_ledger_cost (sim : SimulationResult) (config : SorobanConfig)
  : result LedgerCost.t :=
  (* usage counts *)
  let reads := len (readOnly (footprint (resources sim))) in
  let writes := len (readWrite (footprint (resources sim))) in
  let read_bytes := readBytes (resources sim) in
  let write_bytes := writeBytes (resources sim) in
  let tx_size := transactionSizeBytes sim in
  (* Fee components *)
  kb_read <- py_truediv read_bytes 1024 ;;
  let cost_reads := inject_Z reads * feeReadLedgerEntry config
                    + inject_Z (math_ceil kb_read) * feeRead1KB config in
  kb_write <- py_truediv write_bytes 1024 ;;
  let cost_writes := inject_Z writes * feeWriteLedgerEntry config
                     + inject_Z (math_ceil kb_write) * feeWrite1KB config in
  kb_tx <- py_truediv tx_size 1024 ;;
  let cost_bandwidth := inject_Z (math_ceil kb_tx) * feeTxSize1KB config in
  let total_fee := cost_reads + cost_writes + cost_bandwidth in
  (* Normalized utilization per dimension *)
  u_read_entries <- py_truediv reads (txMaxReadLedgerEntries config) ;;
  u_read_bytes <- py_truediv read_bytes (txMaxReadBytes config) ;;
  u_write_entries <- py_truediv writes (txMaxWriteLedgerEntries config) ;;
  u_write_bytes <- py_truediv write_bytes (txMaxWriteBytes config) ;;
  u_bandwidth <- py_truediv tx_size (txMaxSizeBytes config) ;;
  let utils : dict Q :=
    [("read_entries", u_read_entries);
     ("read_bytes", u_read_bytes);
     ("write_entries", u_write_entries);
     ("write_bytes", u_write_bytes);
     ("bandwidth", u_bandwidth)]%string in
  (* Composite score *)
  let composite_norm := weighted_sum (dict_values utils) LEDGER_WEIGHTS in
  Ok (LedgerCost.mk total_fee composite_norm utils).

(* ------------------------------------------------------------------------- *)
(** ** Scoring functions *)

(** Convert utilization (0-1) to score (100-0), with explicit thresholds. *)
Definition score_dimension_with (utilization threshold_low threshold_high : Q)
  : Z :=
  let score :=
    if Qltb utilization threshold_low then
      _interpolate utilization 0 threshold_low 100 80
    else if Qltb utilization threshold_high then
      _interpolate utilization threshold_low threshold_high 80 50
    else
      _interpolate utilization threshold_high 1 50 0 in
  py_int (py_max 0 (py_min 100 score)).

(** [score_dimension(utilization)] with the default thresholds
    [threshold_low = 0.5] and [threshold_high = 0.8]. *)
Definition score_dimension (utilization : Q) : Z :=
  score_dimension_with utilization (1 # 2) (4 # 5).

(** The three weights, read from the constant table [SCORE_WEIGHTS]. *)
Definition score_weight (k : string) : Q :=
  match dict_get SCORE_WEIGHTS k with Ok w => w | Err _ => 0 end.

(** Compute per-dimension and aggregate scores. *)
Definition compute_scores (cpu : CPUCost.t) (mem : MemoryCost.t)
  (ledger : LedgerCost.t) : Scores.t :=
  let s_cpu := score_dimension (CPUCost.normalized cpu) in
  let s_mem := score_dimension (MemoryCost.normalized mem) in
  let s_ledger := score_dimension (LedgerCost.normalized ledger) in
  let s_total :=
    py_int (score_weight "cpu" * inject_Z s_cpu
            + score_weight "memory" * inject_Z s_mem
            + score_weight "ledger" * inject_Z s_ledger) in
  Scores.mk s_cpu s_mem s_ledger s_total.

(* ------------------------------------------------------------------------- *)
(** ** Optimization hints *)

Local Open Scope string_scope.

Definition hint_cpu_critical (normalized : Q) : string :=
  "CRITICAL: CPU usage at " ++ format_percent0 normalized
    ++ ". Reduce instruction count.".

Definition hint_cpu_high : string :=
  "HIGH CPU: Optimize hot loops and host function calls.".

Definition hint_ledger_pressure (ledger_pressure : Q) : string :=
  "High ledger CPU pressure (" ++ format_sqrt_percent1 ledger_pressure ++ ").".

Definition hint_memory_critical (normalized : Q) : string :=
  "CRITICAL: Memory usage at " ++ format_percent0 normalized
    ++ ". Optimize allocations.".

Definition hint_memory_moderate : string :=
  "MODERATE memory usage. Review data structure sizes.".

Definition hint_ledger_high (label : string) : string :=
  "HIGH " ++ label ++ ". Consider batching or compression.".

Definition hint_cpu_reads : string :=
  "TIP: High CPU + reads. Check for redundant storage accesses.".

Definition hint_excellent : string :=
  "Excellent resource efficiency!".

Definition ledger_labels : dict string :=
  [("read_entries", "read entry count");
   ("write_entries", "write entry count");
   ("read_bytes", "read byte volume");
   ("write_bytes", "write byte volume");
   ("bandwidth", "transaction size")].

(** The loop [for key, util in ledger.breakdown.items()] of
    [generate_hints], started with the list [hints] built so far. *)
Fixpoint ledger_hints_loop (items : dict Q) (hints : list string)
  : result (list string) :=
  match items with
  | [] => Ok hints
  | (key, util) :: rest =>
      if Qltb (3 # 4) util then
        label <- dict_get ledger_labels key ;;
        ledger_hints_loop rest (list_append hints (hint_ledger_high label))
      else ledger_hints_loop rest hints
  end.

(** Generate actionable optimization hints based on resource usage. *)
Definition generate_hints (cpu : CPUCost.t) (mem : MemoryCost.t)
  (ledger : LedgerCost.t) : result (list string) :=
  let hints : list string := [] in
  (* CPU hints *)
  let hints :=
    if Qltb (4 # 5) (CPUCost.normalized cpu) then
      list_append hints (hint_cpu_critical (CPUCost.normalized cpu))
    else if Qltb (3 # 5) (CPUCost.normalized cpu) then
      list_append hints (hint_cpu_high)
    else hints in
  let hints :=
    if Qltb (1 # 2) (CPUCost.ledger_pressure cpu) then
      list_append hints (hint_ledger_pressure (CPUCost.ledger_pressure cpu))
    else hints in
  (* Memory hints *)
  let hints :=
    if Qltb (7 # 10) (MemoryCost.normalized mem) then
      list_append hints (hint_memory_critical (MemoryCost.normalized mem))
    else if Qltb (1 # 2) (MemoryCost.normalized mem) then
      list_append hints (hint_memory_moderate)
    else hints in
  (* Ledger hints *)
  hints <- ledger_hints_loop (LedgerCost.breakdown ledger) hints ;;
  (* Cross-dimension hints *)
  hints <-
    (if Qltb (7 # 10) (CPUCost.normalized cpu) then
       read_entries <- dict_get (LedgerCost.breakdown ledger) "read_entries" ;;
       if Qltb (1 # 2) read_entries then Ok (list_append hints (hint_cpu_reads))
       else Ok hints
     else Ok hints) ;;
  let hints :=
    match hints with
    | [] => list_append hints (hint_excellent)
    | _ :: _ => hints
    end in
  Ok hints.

(* ------------------------------------------------------------------------- *)
(** ** Analysis pipeline *)

Definition violation_cpu : string := "CPU exceeds 95% safety margin".
Definition violation_memory : string := "Memory exceeds 95% safety margin".
Definition violation_ledger (dim : string) : string :=
  "Ledger " ++ dim ++ " exceeds 95% safety margin".

(** The loop [for dim, util in ledger.breakdown.items()] of the safety
    check, started with the list of violations built so far. *)
Fixpoint ledger_violations_loop (items : dict Q) (violations : list string)
  : list string :=
  match items with
  | [] => violations
  | (dim, util) :: rest =>
      if Qltb (95 # 100) util then
        ledger_violations_loop rest (list_append violations (violation_ledger dim))
      else ledger_violations_loop rest violations
  end.

(** Safety check (95% hard limit): the block of [analyze_transaction] that
    builds [safety_violations]. *)
Definition safety_check (cpu : CPUCost.t) (mem : MemoryCost.t)
  (ledger : LedgerCost.t) : list string :=
  let safety_violations : list string := [] in
  let safety_violations :=
    if Qltb (95 # 100) (CPUCost.normalized cpu) then
      list_append safety_violations (violation_cpu)
    else safety_violations in
  let safety_violations :=
    if Qltb (95 # 100) (MemoryCost.normalized mem) then
      list_append safety_violations (violation_memory)
    else safety_violations in
  ledger_violations_loop (LedgerCost.breakdown ledger) safety_violations.

(** Complete analysis pipeline for a Soroban transaction.  [now] is the
    value [datetime.now(timezone.utc)] returns when the record is built. *)
Definition analyze_transaction (now : Z) (sim : SimulationResult)
  (config : SorobanConfig) : result Analysis.t :=
  (* Compute costs *)
  cpu <- compute_cpu_cost sim config ;;
  mem <- compute_memory_cost sim config ;;
  ledger <- compute_ledger_cost sim config ;;
  (* Score *)
  let scores := compute_scores cpu mem ledger in
  (* Generate hints *)
  hints <- generate_hints cpu mem ledger ;;
  (* Safety Check (95% hard limit) *)
  let safety_violations := safety_check cpu mem ledger in
  Ok (Analysis.mk (Costs.mk cpu mem ledger) scores hints safety_violations
        now (version config)).

(* ------------------------------------------------------------------------- *)
(** ** The inputs of the module's example and of its tests *)

Definition mk_sim (instr mem : Z) (ro rw : list pyobj) (rb wb size : Z)
  : SimulationResult :=
  {| instructions := instr;
     memoryBytes := mem;
     resources := {| footprint := {| readOnly := ro; readWrite := rw |};
                     res_instructions := instr;
                     readBytes := rb;
                     writeBytes := wb |};
     transactionSizeBytes := size |}.

(** Example 1 of the module: a simple token transfer. *)
Definition simple_token_transfer_sim : SimulationResult :=
  mk_sim 1250000 2097152
    [PyStr "ContractData(token_balance_alice)"; PyStr "ContractData(token_metadata)"]
    [PyStr "ContractData(token_balance_bob)"]
    512 256 4096.

(** Transaction approaching safety limits (96% utilization). *)
Definition safety_violation_sim : SimulationResult :=
  mk_sim 96000000 40265318 [] [] 0 0 0.

(** Complex marketplace transaction. *)
Definition complex_marketplace_sim : SimulationResult :=
  mk_sim 75000000 32000000
    [PyStr "entry1"; PyStr "entry2"; PyStr "entry3"; PyStr "entry4";
     PyStr "entry5"; PyStr "entry6"]
    [PyStr "entry7"; PyStr "entry8"; PyStr "entry9"; PyStr "entry10"]
    45000 12000 18000.


(* ------------------------------------------------------------------------- *)
(** ** The specification's view of the scoring curve *)

Local Open Scope Q_scope.

(** The affine map that sends [a] to [c] and [b] to [d]. *)
Definition affine (a b c d u : Q) : Q := c + (d - c) * ((u - a) / (b - a)).

(** The three-band piecewise-linear curve: [[0, 0.5)] onto [[100, 80]],
    [[0.5, 0.8)] onto [[80, 50]], and [[0.8, oo)] onto [[50, 0]], the last
    band continued linearly past [1]. *)
Definition band_curve (u : Q) : Q :=
  if Qltb u (1 # 2) then affine 0 (1 # 2) 100 80 u
  else if Qltb u (4 # 5) then affine (1 # 2) (4 # 5) 80 50 u
  else affine (4 # 5) 1 50 0 u.

Definition clamp (lo hi x : Z) : Z := Z.max lo (Z.min hi x).

(** Floor the curve, then clamp to [[0, 100]]. *)
Definition curve_score (u : Q) : Z := clamp 0 100 (Qfloor (band_curve u)).

(** Linear arithmetic over the rationals and over the reals. *)
Ltac qlra := Lqa.lra.

(* ------------------------------------------------------------------------- *)
(** ** Configurations *)





(** The fields each cost function divides by, in the order of the
    divisions. *)
Definition cpu_divisors (c : SorobanConfig) : list Z :=
  [feeRatePerInstructionsIncrement c; txMaxInstructions c;
   ledgerMaxInstructions c].

Definition memory_divisors (c : SorobanConfig) : list Z :=
  [txMemoryLimit c].

Definition ledger_divisors (c : SorobanConfig) : list Z :=
  [txMaxReadLedgerEntries c; txMaxReadBytes c;
   txMaxWriteLedgerEntries c; txMaxWriteBytes c; txMaxSizeBytes c].

Definition divisors (c : SorobanConfig) : list Z :=
  (cpu_divisors c ++ memory_divisors c ++ ledger_divisors c)%list.

Definition nonzero (l : list Z) : Prop := Forall (fun x => x <> 0%Z) l.
Definition some_zero (l : list Z) : Prop := Exists (fun x => x = 0%Z) l.

(* ------------------------------------------------------------------------- *)
(** ** The specification's view of the fee arithmetic *)

(** Kilobyte units billed for a byte volume: any partial kilobyte counts as
    a full one. *)
Definition kilobytes_billed (bytes : Z) : Z := ((bytes + 1023) / 1024)%Z.

(** The argument [compute_memory_cost] gives [math.exp]. *)
Definition memory_exponent (sim : SimulationResult) (c : SorobanConfig) : Q :=
  5 * (inject_Z (memoryBytes sim) / inject_Z (txMemoryLimit c)).

(** The memory penalty is within the range of [math.exp]. *)
Definition exp_in_range (sim : SimulationResult) (c : SorobanConfig) : Prop :=
  memory_exponent sim c <= exp_max_arg.


(* ------------------------------------------------------------------------- *)
(** ** The specification's view of the hint rules and of the safety check *)

Local Open Scope string_scope.

(** The ledger dimensions, in their fixed enumeration order. *)
Definition ledger_dimensions : list string :=
  ["read_entries"; "read_bytes"; "write_entries"; "write_bytes"; "bandwidth"].

(** The fixed human-readable label of a dimension. *)
Definition dimension_label (dim : string) : string :=
  match dict_get ledger_labels dim with
  | Ok label => label
  | Err _ => ""
  end.

(** Rule 1: CPU utilization above 0.8, else above 0.6. *)
Definition rule_cpu (cpu : CPUCost.t) : list string :=
  if Qltb (4 # 5) (CPUCost.normalized cpu) then
    [hint_cpu_critical (CPUCost.normalized cpu)]
  else if Qltb (3 # 5) (CPUCost.normalized cpu) then [hint_cpu_high]
  else [].

(** Rule 2: ledger pressure above 0.5. *)
Definition rule_ledger_pressure (cpu : CPUCost.t) : list string :=
  if Qltb (1 # 2) (CPUCost.ledger_pressure cpu) then
    [hint_ledger_pressure (CPUCost.ledger_pressure cpu)]
  else [].

(** Rule 3: memory utilization above 0.7, else above 0.5. *)
Definition rule_memory (mem : MemoryCost.t) : list string :=
  if Qltb (7 # 10) (MemoryCost.normalized mem) then
    [hint_memory_critical (MemoryCost.normalized mem)]
  else if Qltb (1 # 2) (MemoryCost.normalized mem) then [hint_memory_moderate]
  else [].

(** The utilization of a ledger dimension ([0] for a dimension the
    breakdown does not have). *)
Definition dimension_utilization (ledger : LedgerCost.t) (dim : string) : Q :=
  match dict_get (LedgerCost.breakdown ledger) dim with
  | Ok u => u
  | Err _ => 0
  end.

(** Rule 4, for one ledger dimension: utilization above 0.75. *)
Definition rule_ledger_dimension (ledger : LedgerCost.t) (dim : string)
  : list string :=
  if Qltb (3 # 4) (dimension_utilization ledger dim) then
    [hint_ledger_high (dimension_label dim)]
  else [].

(** Rule 5: CPU utilization above 0.7 and read-entries utilization above
    0.5. *)
Definition rule_cpu_reads (cpu : CPUCost.t) (ledger : LedgerCost.t)
  : list string :=
  if Qltb (7 # 10) (CPUCost.normalized cpu)
     && Qltb (1 # 2) (dimension_utilization ledger "read_entries")
  then [hint_cpu_reads]
  else [].

(** The messages of the rules that fire, in rule order. *)
Definition fired_rules (cpu : CPUCost.t) (mem : MemoryCost.t)
  (ledger : LedgerCost.t) : list string :=
  (rule_cpu cpu
   ++ rule_ledger_pressure cpu
   ++ rule_memory mem
   ++ flat_map (rule_ledger_dimension ledger) ledger_dimensions
   ++ rule_cpu_reads cpu ledger)%list.

(** The messages the loop of [generate_hints] appends for a list of
    items. *)
Definition ledger_loop_hints (items : dict Q) : list string :=
  flat_map (fun kv : string * Q =>
              if Qltb (3 # 4) (snd kv) then
                [hint_ledger_high (dimension_label (fst kv))]
              else [])
           items.

(** The violations the loop of the safety check appends for a list of
    items. *)
Definition ledger_loop_violations (items : dict Q) : list string :=
  flat_map (fun kv : string * Q =>
              if Qltb (95 # 100) (snd kv) then [violation_ledger (fst kv)]
              else [])
           items.

(** The first character of a string. *)
Definition first_char (s : string) : option ascii :=
  match s with
  | EmptyString => None
  | String c _ => Some c
  end.

Local Close Scope string_scope.

(* ------------------------------------------------------------------------- *)
(** ** Inputs outside the data model *)








(* ------------------------------------------------------------------------- *)
(** ** Further definitions used by the properties of the hint generator *)

(** A key the label table of [generate_hints] has an entry for. *)
Definition labelled (key : string) : bool :=
  is_ok (dict_get ledger_labels key).

(** [key in d]. *)
Definition has_key {V : Type} (d : dict V) (key : string) : bool :=
  is_ok (dict_get d key).

(** Three characters that tell the kinds of hint messages apart: those at
    the positions 0, 1 and 10. *)
Definition hint_tag (m : string) : option ascii * option ascii * option ascii :=
  (String.get 0 m, String.get 1 m, String.get 10 m).

(** A configuration with the five ledger-wide I/O and size limits
    replaced. *)
Definition with_ledger_wide_limits (c : SorobanConfig)
  (max_read_entries max_read_bytes max_write_entries max_write_bytes
   max_txs_size : Z) : SorobanConfig := {|
  txMaxInstructions := txMaxInstructions c;
  ledgerMaxInstructions := ledgerMaxInstructions c;
  feeRatePerInstructionsIncrement := feeRatePerInstructionsIncrement c;
  feeCPUPerIncrement := feeCPUPerIncrement c;
  txMemoryLimit := txMemoryLimit c;
  txMaxReadLedgerEntries := txMaxReadLedgerEntries c;
  txMaxReadBytes := txMaxReadBytes c;
  txMaxWriteLedgerEntries := txMaxWriteLedgerEntries c;
  txMaxWriteBytes := txMaxWriteBytes c;
  ledgerMaxReadLedgerEntries := max_read_entries;
  ledgerMaxReadBytes := max_read_bytes;
  ledgerMaxWriteLedgerEntries := max_write_entries;
  ledgerMaxWriteBytes := max_write_bytes;
  feeReadLedgerEntry := feeReadLedgerEntry c;
  feeWriteLedgerEntry := feeWriteLedgerEntry c;
  feeRead1KB := feeRead1KB c;
  feeWrite1KB := feeWrite1KB c;
  txMaxSizeBytes := txMaxSizeBytes c;
  ledgerMaxTxsSizeBytes := max_txs_size;
  feeTxSize1KB := feeTxSize1KB c;
  version := version c
|}.

(** The value of the local variable [score] of [score_dimension], before
    it is clamped and truncated. *)
Definition raw_score (utilization threshold_low threshold_high : Q) : Q :=
  if Qltb utilization threshold_low then
    _interpolate utilization 0 threshold_low 100 80
  else if Qltb utilization threshold_high then
    _interpolate utilization threshold_low threshold_high 80 50
  else
    _interpolate utilization threshold_high 1 50 0.


(* ------------------------------------------------------------------------- *)
(** ** Basic facts on the Python operations *)

Lemma Qltb_true (x y : Q) : Qltb x y = true <-> x < y.
Proof.
  unfold Qltb. rewrite negb_true_iff.
  split; intro H.
  - apply Qnot_le_lt. intro Hle. apply Qle_bool_iff in Hle. congruence.
  - destruct (Qle_bool y x) eqn:E; [| reflexivity].
    apply Qle_bool_iff in E. exfalso. apply (Qlt_not_le _ _ H E).
Qed.

Lemma Qltb_false (x y : Q) : Qltb x y = false <-> y <= x.
Proof.
  unfold Qltb. rewrite negb_false_iff. apply Qle_bool_iff.
Qed.

Lemma Qltb_spec (x y : Q) : reflect (x < y) (Qltb x y).
Proof.
  destruct (Qltb x y) eqn:E; constructor.
  - now apply Qltb_true.
  - apply Qltb_false in E. now apply Qle_not_lt.
Qed.

Lemma py_truediv_ok (a b : Z) :
  b <> 0%Z -> py_truediv a b = Ok (inject_Z a / inject_Z b).
Proof.
  intro H. unfold py_truediv. apply Z.eqb_neq in H. now rewrite H.
Qed.


(** On a non-negative number [int] is the floor. *)
Lemma py_int_floor (x : Q) : 0 <= x -> py_int x = Qfloor x.
Proof.
  destruct x as [n d]. unfold Qle, py_int, Qfloor. simpl.
  intro H. apply Z.quot_div_nonneg; lia.
Qed.


(** [int(max(0, min(100, s)))] floors [s] and clamps the result. *)
Lemma py_int_clamp (s : Q) :
  py_int (py_max 0 (py_min 100 s)) = clamp 0 100 (Qfloor s).
Proof.
  unfold py_max, py_min, clamp.
  destruct (Qltb_spec s 100) as [H100 | H100].
  - destruct (Qltb_spec 0 s) as [H0 | H0].
    + rewrite py_int_floor by qlra.
      assert (0 <= Qfloor s)%Z.
      { change 0%Z with (Qfloor 0). apply Qfloor_resp_le. qlra. }
      assert (Qfloor s <= 99)%Z.
      { apply Z.lt_succ_r. rewrite Zlt_Qlt.
        eapply Qle_lt_trans; [apply Qfloor_le |]. exact H100. }
      lia.
    + assert (Hs : s <= 0) by qlra.
      apply Qfloor_resp_le in Hs. change (Qfloor 0) with 0%Z in Hs.
      change (py_int 0) with 0%Z. lia.
  - assert (Hs : 100 <= s) by qlra.
    apply Qfloor_resp_le in Hs. change (Qfloor 100) with 100%Z in Hs.
    replace (Qltb 0 100) with true by reflexivity.
    change (py_int 100) with 100%Z. lia.
Qed.

Lemma clamp_range (x : Z) : (0 <= clamp 0 100 x <= 100)%Z.
Proof. unfold clamp. lia. Qed.

Lemma clamp_mono (x y : Z) : (x <= y)%Z -> (clamp 0 100 x <= clamp 0 100 y)%Z.
Proof. unfold clamp. lia. Qed.

(* ------------------------------------------------------------------------- *)
(** ** The dimension scorer *)

Lemma _interpolate_affine (v a b c d : Q) :
  ~ b == a -> _interpolate v a b c d == affine a b c d v.
Proof.
  intro H. unfold _interpolate, affine.
  destruct (Qeq_bool b a) eqn:E.
  - apply Qeq_bool_iff in E. contradiction.
  - ring.
Qed.

(** The curve in closed form, band by band. *)
Lemma band_curve_low (u : Q) : u < 1 # 2 -> band_curve u == 100 - 40 * u.
Proof.
  intro H. unfold band_curve. apply Qltb_true in H. rewrite H.
  unfold affine. field.
Qed.

Lemma band_curve_mid (u : Q) :
  1 # 2 <= u -> u < 4 # 5 -> band_curve u == 130 - 100 * u.
Proof.
  intros H1 H2. unfold band_curve.
  apply Qltb_false in H1. apply Qltb_true in H2. rewrite H1, H2.
  unfold affine. field.
Qed.

Lemma band_curve_high (u : Q) : 4 # 5 <= u -> band_curve u == 250 - 250 * u.
Proof.
  intro H. unfold band_curve.
  assert (H1 : 1 # 2 <= u) by qlra.
  apply Qltb_false in H1. apply Qltb_false in H. rewrite H1, H.
  unfold affine. field.
Qed.

Lemma band_curve_cases (u : Q) :
  (u < 1 # 2 /\ band_curve u == 100 - 40 * u)
  \/ ((1 # 2 <= u /\ u < 4 # 5) /\ band_curve u == 130 - 100 * u)
  \/ (4 # 5 <= u /\ band_curve u == 250 - 250 * u).
Proof.
  destruct (Qlt_le_dec u (1 # 2)) as [A | A].
  - left. split; [exact A | now apply band_curve_low].
  - destruct (Qlt_le_dec u (4 # 5)) as [B | B].
    + right. left. split; [now split | now apply band_curve_mid].
    + right. right. split; [exact B | now apply band_curve_high].
Qed.

(** The curve never rises. *)
Lemma band_curve_antitone (u1 u2 : Q) :
  u1 <= u2 -> band_curve u2 <= band_curve u1.
Proof.
  intro H.
  destruct (band_curve_cases u1) as [[A1 E1] | [[[A1 B1] E1] | [A1 E1]]];
    destruct (band_curve_cases u2) as [[A2 E2] | [[[A2 B2] E2] | [A2 E2]]];
    rewrite E1, E2; qlra.
Qed.

Lemma score_dimension_curve (u : Q) : score_dimension u = curve_score u.
Proof.
  unfold score_dimension, score_dimension_with, curve_score, band_curve.
  rewrite py_int_clamp. f_equal.
  destruct (Qltb u (1 # 2)); [| destruct (Qltb u (4 # 5))];
    apply Qfloor_comp, _interpolate_affine; discriminate.
Qed.

Lemma score_dimension_range (u : Q) : (0 <= score_dimension u <= 100)%Z.
Proof. rewrite score_dimension_curve. apply clamp_range. Qed.

Lemma score_dimension_antitone (u1 u2 : Q) :
  u1 <= u2 -> (score_dimension u2 <= score_dimension u1)%Z.
Proof.
  intro H. rewrite !score_dimension_curve. unfold curve_score.
  apply clamp_mono, Qfloor_resp_le, band_curve_antitone, H.
Qed.


(* ------------------------------------------------------------------------- *)
(** ** Rounding up *)

Lemma inject_Z_pos (z : Z) : (0 < z)%Z -> 0 < inject_Z z.
Proof. intro H. change 0 with (inject_Z 0). now rewrite <- Zlt_Qlt. Qed.


(** [ceil(n / r)] is the least [k] with [n <= k * r], for a positive [r]. *)
Lemma math_ceil_div_bounds (n r : Z) :
  (0 < r)%Z ->
  let k := math_ceil (inject_Z n / inject_Z r) in
  ((k - 1) * r < n <= k * r)%Z.
Proof.
  intros Hr k.
  pose proof (inject_Z_pos r Hr) as Hq.
  assert (Hn : inject_Z n == (inject_Z n / inject_Z r) * inject_Z r).
  { field. intro E. rewrite E in Hq. now apply Qlt_irrefl in Hq. }
  pose proof (Qle_ceiling (inject_Z n / inject_Z r)) as Hup.
  pose proof (Qceiling_lt (inject_Z n / inject_Z r)) as Hlo.
  fold (math_ceil (inject_Z n / inject_Z r)) in Hup, Hlo. fold k in Hup, Hlo.
  split.
  - rewrite Zlt_Qlt, inject_Z_mult.
    apply Qlt_le_trans with ((inject_Z n / inject_Z r) * inject_Z r).
    + apply Qmult_lt_compat_r; [exact Hq | exact Hlo].
    + rewrite <- Hn. apply Qle_refl.
  - rewrite Zle_Qle, inject_Z_mult.
    apply Qle_trans with ((inject_Z n / inject_Z r) * inject_Z r).
    + rewrite <- Hn. apply Qle_refl.
    + apply Qmult_le_compat_r; [exact Hup |]. now apply Qlt_le_weak.
Qed.

Lemma math_ceil_div_unique (n r k : Z) :
  (0 < r)%Z -> ((k - 1) * r < n <= k * r)%Z ->
  math_ceil (inject_Z n / inject_Z r) = k.
Proof.
  intros Hr Hk. pose proof (math_ceil_div_bounds n r Hr) as Hc.
  cbv zeta in Hc. nia.
Qed.

(** The code's [math.ceil(bytes / 1024)] is the number of kilobyte units
    billed. *)
Lemma math_ceil_kilobytes (bytes : Z) :
  math_ceil (inject_Z bytes / inject_Z 1024) = kilobytes_billed bytes.
Proof.
  apply math_ceil_div_unique; [lia |]. unfold kilobytes_billed.
  pose proof (Z.div_mod (bytes + 1023) 1024 ltac:(lia)) as E.
  pose proof (Z.mod_pos_bound (bytes + 1023) 1024 ltac:(lia)) as B.
  lia.
Qed.


(* ------------------------------------------------------------------------- *)
(** ** Configurations *)



(* ------------------------------------------------------------------------- *)
(** ** The cost functions return, and what they return *)

Ltac split_nonzero H :=
  unfold nonzero, divisors, cpu_divisors, memory_divisors, ledger_divisors in H;
  simpl in H;
  repeat match goal with
         | h : Forall _ (_ :: _) |- _ => inversion h; subst; clear h
         | h : Forall _ [] |- _ => clear h
         end.

Lemma compute_cpu_cost_ok (sim : SimulationResult) (c : SorobanConfig) :
  nonzero (cpu_divisors c) ->
  let n := inject_Z (instructions sim) in
  let fee :=
    inject_Z (math_ceil (n / inject_Z (feeRatePerInstructionsIncrement c)))
    * feeCPUPerIncrement c in
  let pressure := (n / inject_Z (ledgerMaxInstructions c)) ^ 2 in
  compute_cpu_cost sim c =
    Ok (CPUCost.mk fee (n / inject_Z (txMaxInstructions c)) pressure
          (fee * (1 + (1 # 2) * pressure))).
Proof.
  intros H. split_nonzero H. unfold compute_cpu_cost.
  rewrite !py_truediv_ok by assumption. reflexivity.
Qed.

Lemma compute_memory_cost_ok (sim : SimulationResult) (c : SorobanConfig) :
  nonzero (memory_divisors c) ->
  exp_in_range sim c ->
  let u := inject_Z (memoryBytes sim) / inject_Z (txMemoryLimit c) in
  compute_memory_cost sim c =
    Ok (MemoryCost.mk (memoryBytes sim) u
          {| scale := 100 * 1; exponent := 5 * u |}).
Proof.
  intros H Hr. split_nonzero H. unfold compute_memory_cost.
  rewrite !py_truediv_ok by assumption. cbn [bind]. unfold math_exp.
  apply Qle_bool_iff in Hr. unfold memory_exponent in Hr. rewrite Hr.
  reflexivity.
Qed.


Lemma compute_ledger_cost_ok (sim : SimulationResult) (c : SorobanConfig) :
  nonzero (ledger_divisors c) ->
  let reads := inject_Z (len (readOnly (footprint (resources sim)))) in
  let writes := inject_Z (len (readWrite (footprint (resources sim)))) in
  let read_bytes := readBytes (resources sim) in
  let write_bytes := writeBytes (resources sim) in
  let tx_size := transactionSizeBytes sim in
  let utils : dict Q :=
    [("read_entries"%string, reads / inject_Z (txMaxReadLedgerEntries c));
     ("read_bytes"%string, inject_Z read_bytes / inject_Z (txMaxReadBytes c));
     ("write_entries"%string, writes / inject_Z (txMaxWriteLedgerEntries c));
     ("write_bytes"%string, inject_Z write_bytes / inject_Z (txMaxWriteBytes c));
     ("bandwidth"%string, inject_Z tx_size / inject_Z (txMaxSizeBytes c))] in
  compute_ledger_cost sim c =
    Ok (LedgerCost.mk
          (reads * feeReadLedgerEntry c
           + inject_Z (kilobytes_billed read_bytes) * feeRead1KB c
           + (writes * feeWriteLedgerEntry c
              + inject_Z (kilobytes_billed write_bytes) * feeWrite1KB c)
           + inject_Z (kilobytes_billed tx_size) * feeTxSize1KB c)
          (weighted_sum (dict_values utils) LEDGER_WEIGHTS)
          utils).
Proof.
  intros H. split_nonzero H. unfold compute_ledger_cost.
  rewrite !py_truediv_ok by (assumption || discriminate).
  cbn [bind]. rewrite !math_ceil_kilobytes. reflexivity.
Qed.

(** A zero divisor ends each cost function with [ZeroDivisionError]. *)
Lemma py_truediv_cases (a b : Z) :
  (b = 0%Z /\ py_truediv a b = Err ZeroDivisionError)
  \/ (b <> 0%Z /\ py_truediv a b = Ok (inject_Z a / inject_Z b)).
Proof.
  destruct (Z.eq_dec b 0) as [-> | H].
  - left. split; reflexivity.
  - right. split; [exact H | now apply py_truediv_ok].
Qed.

Ltac step_truediv :=
  match goal with
  | |- context [py_truediv ?a ?b] =>
      let E := fresh "E" in
      destruct (py_truediv_cases a b) as [[? E] | [? E]];
      rewrite E; cbn [bind]
  end.

Ltac split_some_zero H :=
  unfold some_zero, divisors, cpu_divisors, memory_divisors, ledger_divisors in H;
  simpl in H;
  repeat match goal with
         | h : Exists _ (_ :: _) |- _ => inversion h; subst; clear h
         | h : Exists _ [] |- _ => inversion h
         end.



Lemma compute_ledger_cost_zero (sim : SimulationResult) (c : SorobanConfig) :
  some_zero (ledger_divisors c) ->
  compute_ledger_cost sim c = Err ZeroDivisionError.
Proof.
  intro H. unfold compute_ledger_cost.
  repeat (step_truediv; [reflexivity |]).
  split_some_zero H; congruence.
Qed.

Lemma nonzero_or_some_zero (l : list Z) : nonzero l \/ some_zero l.
Proof.
  induction l as [| x l IH].
  - left. constructor.
  - destruct (Z.eq_dec x 0) as [-> | Hx].
    + right. now constructor.
    + destruct IH as [IH | IH].
      * left. now constructor.
      * right. now constructor 2.
Qed.

Lemma nonzero_app (l1 l2 : list Z) :
  nonzero (l1 ++ l2) <-> nonzero l1 /\ nonzero l2.
Proof. apply Forall_app. Qed.


(* ------------------------------------------------------------------------- *)
(** ** The exponential penalty, in the real numbers *)





(* ------------------------------------------------------------------------- *)
(** ** Strings *)

Lemma string_length_append (s t : string) :
  String.length (s ++ t) = (String.length s + String.length t)%nat.
Proof. induction s as [| c s IH]; simpl; [reflexivity | now rewrite IH]. Qed.

Lemma string_append_inj_tail (s1 s2 t : string) :
  (s1 ++ t = s2 ++ t)%string -> s1 = s2.
Proof.
  revert s2. induction s1 as [| c1 s1 IH]; intros [| c2 s2] H; simpl in H.
  - reflexivity.
  - apply (f_equal String.length) in H. simpl in H.
    rewrite string_length_append in H. lia.
  - apply (f_equal String.length) in H. simpl in H.
    rewrite string_length_append in H. lia.
  - injection H as -> H. f_equal. now apply IH.
Qed.

Lemma violation_ledger_inj (d1 d2 : string) :
  violation_ledger d1 = violation_ledger d2 -> d1 = d2.
Proof.
  unfold violation_ledger. intro H. simpl in H.
  repeat match type of H with String _ _ = String _ _ => injection H as H end.
  now apply string_append_inj_tail in H.
Qed.

Lemma first_char_violation_ledger (d : string) :
  first_char (violation_ledger d) = Some "L"%char.
Proof. reflexivity. Qed.

(* ------------------------------------------------------------------------- *)
(** ** Dictionaries in insertion order *)

Lemma dict_get_in {V : Type} (d : dict V) (k : string) (v : V) :
  NoDup (dict_keys d) -> In (k, v) d -> dict_get d k = Ok v.
Proof.
  induction d as [| [k' v'] d IH]; intros Hnd Hin; [contradiction |].
  simpl in *. inversion Hnd as [| ? ? Hnotin Hnd']; subst.
  destruct Hin as [E | Hin].
  - injection E as -> ->. now rewrite String.eqb_refl.
  - destruct (String.eqb_spec k' k) as [-> | _].
    + exfalso. apply Hnotin. unfold dict_keys.
      change k with (fst (k, v)). now apply in_map.
    + now apply IH.
Qed.

Lemma NoDup_ledger_dimensions : NoDup ledger_dimensions.
Proof.
  unfold ledger_dimensions.
  repeat constructor; simpl; intuition discriminate.
Qed.

(* ------------------------------------------------------------------------- *)
(** ** The loops over the ledger breakdown *)

Lemma ledger_hints_loop_spec (items : dict Q) (hints : list string) :
  Forall (fun k => In k ledger_dimensions) (dict_keys items) ->
  ledger_hints_loop items hints = Ok (hints ++ ledger_loop_hints items).
Proof.
  revert hints. induction items as [| [k u] items IH]; intros hints Hk.
  - simpl. now rewrite app_nil_r.
  - inversion Hk as [| ? ? Hin Hk']; subst. simpl in Hin.
    cbn [ledger_hints_loop ledger_loop_hints flat_map fst snd].
    destruct (Qltb (3 # 4) u).
    + assert (E : dict_get ledger_labels k = Ok (dimension_label k)).
      { unfold ledger_dimensions in Hin. simpl in Hin.
        repeat destruct Hin as [<- | Hin]; try reflexivity. contradiction. }
      rewrite E. cbn [bind]. rewrite (IH _ Hk'). unfold list_append.
      now rewrite <- app_assoc.
    + now rewrite (IH _ Hk').
Qed.

Lemma ledger_violations_loop_spec (items : dict Q) (violations : list string) :
  ledger_violations_loop items violations
  = (violations ++ ledger_loop_violations items)%list.
Proof.
  revert violations. induction items as [| [k u] items IH]; intro violations.
  - simpl. now rewrite app_nil_r.
  - cbn [ledger_violations_loop ledger_loop_violations flat_map fst snd].
    destruct (Qltb (95 # 100) u).
    + rewrite IH. unfold list_append. now rewrite <- app_assoc.
    + now rewrite IH.
Qed.

Lemma in_ledger_loop_violations (items : dict Q) (v : string) :
  In v (ledger_loop_violations items)
  <-> exists dim u, In (dim, u) items /\ 95 # 100 < u /\ v = violation_ledger dim.
Proof.
  unfold ledger_loop_violations. rewrite in_flat_map. split.
  - intros [[dim u] [Hin Hv]]. cbn [fst snd] in Hv.
    destruct (Qltb_spec (95 # 100) u) as [Hu | Hu]; [| contradiction].
    destruct Hv as [<- | []]. now exists dim, u.
  - intros (dim & u & Hin & Hu & ->). exists (dim, u). split; [exact Hin |].
    cbn [fst snd]. apply Qltb_true in Hu. rewrite Hu. now left.
Qed.

(** With the five dimensions as keys, the loop of [generate_hints] emits
    the messages of rule 4 in enumeration order. *)
Lemma ledger_loop_hints_rules (ledger : LedgerCost.t) :
  dict_keys (LedgerCost.breakdown ledger) = ledger_dimensions ->
  ledger_loop_hints (LedgerCost.breakdown ledger)
  = flat_map (rule_ledger_dimension ledger) ledger_dimensions.
Proof.
  intro Hk. unfold rule_ledger_dimension, dimension_utilization.
  destruct (LedgerCost.breakdown ledger)
    as [| [k1 u1] [| [k2 u2] [| [k3 u3] [| [k4 u4] [| [k5 u5] [| ? ?]]]]]];
    try discriminate Hk.
  unfold dict_keys, ledger_dimensions in Hk. simpl in Hk.
  injection Hk as -> -> -> -> ->. reflexivity.
Qed.

(* ------------------------------------------------------------------------- *)
(** ** The hint generator *)

Lemma dict_get_dimension (ledger : LedgerCost.t) (dim : string) :
  dict_keys (LedgerCost.breakdown ledger) = ledger_dimensions ->
  In dim ledger_dimensions ->
  dict_get (LedgerCost.breakdown ledger) dim
  = Ok (dimension_utilization ledger dim).
Proof.
  intros Hk Hin. unfold dimension_utilization.
  destruct (LedgerCost.breakdown ledger)
    as [| [k1 u1] [| [k2 u2] [| [k3 u3] [| [k4 u4] [| [k5 u5] [| ? ?]]]]]];
    try discriminate Hk.
  unfold dict_keys, ledger_dimensions in Hk. simpl in Hk.
  injection Hk as -> -> -> -> ->.
  unfold ledger_dimensions in Hin. simpl in Hin.
  repeat destruct Hin as [<- | Hin]; try reflexivity. contradiction.
Qed.

(** What [generate_hints] returns: the messages of the fired rules in rule
    order, or the fallback message alone when no rule fired. *)
Lemma generate_hints_spec
  (cpu : CPUCost.t) (mem : MemoryCost.t) (ledger : LedgerCost.t) :
  dict_keys (LedgerCost.breakdown ledger) = ledger_dimensions ->
  generate_hints cpu mem ledger
  = Ok (match fired_rules cpu mem ledger with
        | [] => [hint_excellent]
        | _ :: _ => fired_rules cpu mem ledger
        end).
Proof.
  intro Hk. unfold generate_hints. cbv zeta.
  match goal with
  | |- context [ledger_hints_loop _ ?h] =>
      assert (E : h = (rule_cpu cpu ++ rule_ledger_pressure cpu
                       ++ rule_memory mem)%list)
  end.
  { unfold rule_cpu, rule_ledger_pressure, rule_memory, list_append.
    destruct (Qltb (4 # 5) (CPUCost.normalized cpu));
      destruct (Qltb (3 # 5) (CPUCost.normalized cpu));
      destruct (Qltb (1 # 2) (CPUCost.ledger_pressure cpu));
      destruct (Qltb (7 # 10) (MemoryCost.normalized mem));
      destruct (Qltb (1 # 2) (MemoryCost.normalized mem)); reflexivity. }
  rewrite E. clear E.
  rewrite ledger_hints_loop_spec.
  2:{ rewrite Hk. apply Forall_forall. auto. }
  cbn [bind]. rewrite (ledger_loop_hints_rules ledger Hk).
  assert (Hre : dict_get (LedgerCost.breakdown ledger) "read_entries"
                = Ok (dimension_utilization ledger "read_entries")).
  { apply dict_get_dimension; [exact Hk | now left]. }
  rewrite Hre. cbn [bind].
  assert (F : fired_rules cpu mem ledger
              = ((rule_cpu cpu ++ rule_ledger_pressure cpu ++ rule_memory mem)
                 ++ flat_map (rule_ledger_dimension ledger) ledger_dimensions)
                ++ rule_cpu_reads cpu ledger).
  { unfold fired_rules. now rewrite <- !app_assoc. }
  rewrite F. unfold rule_cpu_reads, list_append.
  destruct (Qltb (7 # 10) (CPUCost.normalized cpu));
    [destruct (Qltb (1 # 2) (dimension_utilization ledger "read_entries")) |];
    cbn [andb bind]; rewrite ?app_nil_r;
    match goal with
    | |- context [match ?l with [] => _ | _ :: _ => _ end] => destruct l
    end; reflexivity.
Qed.

(** No rule emits the fallback message. *)
Lemma fired_rules_first_char
  (cpu : CPUCost.t) (mem : MemoryCost.t) (ledger : LedgerCost.t) (m : string) :
  In m (fired_rules cpu mem ledger) -> first_char m <> Some "E"%char.
Proof.
  unfold fired_rules. rewrite !in_app_iff, in_flat_map.
  unfold rule_cpu, rule_ledger_pressure, rule_memory, rule_cpu_reads,
    rule_ledger_dimension.
  intros [H | [H | [H | [[dim [_ H]] | H]]]];
    repeat match type of H with
           | In _ (if ?b then _ else _) => destruct b
           end;
    simpl in H; try contradiction; destruct H as [<- | []]; discriminate.
Qed.

Lemma hint_excellent_not_fired
  (cpu : CPUCost.t) (mem : MemoryCost.t) (ledger : LedgerCost.t) :
  ~ In hint_excellent (fired_rules cpu mem ledger).
Proof.
  intro H. apply fired_rules_first_char in H. now apply H.
Qed.

(** The ledger cost model builds its breakdown in enumeration order. *)
Lemma compute_ledger_cost_keys
  (sim : SimulationResult) (c : SorobanConfig) (ledger : LedgerCost.t) :
  compute_ledger_cost sim c = Ok ledger ->
  dict_keys (LedgerCost.breakdown ledger) = ledger_dimensions.
Proof.
  intro H. destruct (nonzero_or_some_zero (ledger_divisors c)) as [Hnz | Hz].
  - rewrite (compute_ledger_cost_ok sim c Hnz) in H. injection H as <-.
    reflexivity.
  - rewrite (compute_ledger_cost_zero sim c Hz) in H. discriminate.
Qed.

(* ------------------------------------------------------------------------- *)
(** ** The analysis pipeline *)

Lemma analyze_transaction_inv
  (now : Z) (sim : SimulationResult) (c : SorobanConfig) (a : Analysis.t) :
  analyze_transaction now sim c = Ok a ->
  exists cpu mem ledger hints,
    compute_cpu_cost sim c = Ok cpu
    /\ compute_memory_cost sim c = Ok mem
    /\ compute_ledger_cost sim c = Ok ledger
    /\ generate_hints cpu mem ledger = Ok hints
    /\ a = Analysis.mk (Costs.mk cpu mem ledger) (compute_scores cpu mem ledger)
             hints (safety_check cpu mem ledger) now (version c).
Proof.
  unfold analyze_transaction. intro H.
  destruct (compute_cpu_cost sim c) as [cpu |]; [| discriminate].
  destruct (compute_memory_cost sim c) as [mem |]; [| discriminate].
  destruct (compute_ledger_cost sim c) as [ledger |]; [| discriminate].
  cbn [bind] in H.
  destruct (generate_hints cpu mem ledger) as [hints |] eqn:Eh; [| discriminate].
  cbn [bind] in H. injection H as <-.
  exists cpu, mem, ledger, hints. repeat split; [exact Eh].
Qed.

Lemma analyze_transaction_ok
  (now : Z) (sim : SimulationResult) (c : SorobanConfig) :
  nonzero (divisors c) -> exp_in_range sim c ->
  exists a, analyze_transaction now sim c = Ok a.
Proof.
  intros Hall Hr. unfold divisors in Hall.
  apply nonzero_app in Hall. destruct Hall as [Hcpu Hall].
  apply nonzero_app in Hall. destruct Hall as [Hmem Hled].
  unfold analyze_transaction.
  rewrite (compute_cpu_cost_ok sim c Hcpu), (compute_memory_cost_ok sim c Hmem Hr).
  pose proof (compute_ledger_cost_ok sim c Hled) as E. cbv zeta in E.
  rewrite E. cbn [bind].
  rewrite generate_hints_spec by reflexivity.
  cbn [bind]. eexists. reflexivity.
Qed.





(** The safety check: which strings it returns, and in which order. *)
Lemma safety_check_list
  (cpu : CPUCost.t) (mem : MemoryCost.t) (ledger : LedgerCost.t) :
  safety_check cpu mem ledger
  = ((if Qltb (95 # 100) (CPUCost.normalized cpu) then [violation_cpu] else [])
     ++ (if Qltb (95 # 100) (MemoryCost.normalized mem) then [violation_memory]
         else [])
     ++ ledger_loop_violations (LedgerCost.breakdown ledger))%list.
Proof.
  unfold safety_check. cbv zeta. rewrite ledger_violations_loop_spec.
  unfold list_append.
  destruct (Qltb (95 # 100) (CPUCost.normalized cpu));
    destruct (Qltb (95 # 100) (MemoryCost.normalized mem)); reflexivity.
Qed.

Lemma in_safety_check
  (cpu : CPUCost.t) (mem : MemoryCost.t) (ledger : LedgerCost.t) (v : string) :
  In v (safety_check cpu mem ledger)
  <-> (v = violation_cpu /\ 95 # 100 < CPUCost.normalized cpu)
      \/ (v = violation_memory /\ 95 # 100 < MemoryCost.normalized mem)
      \/ (exists dim u, In (dim, u) (LedgerCost.breakdown ledger)
                        /\ 95 # 100 < u /\ v = violation_ledger dim).
Proof.
  unfold safety_check. cbv zeta. rewrite ledger_violations_loop_spec.
  rewrite in_app_iff, in_ledger_loop_violations. unfold list_append.
  destruct (Qltb_spec (95 # 100) (CPUCost.normalized cpu)) as [Hc | Hc];
    destruct (Qltb_spec (95 # 100) (MemoryCost.normalized mem)) as [Hm | Hm];
    simpl; intuition (subst; auto; try contradiction).
Qed.

(* ------------------------------------------------------------------------- *)
(** ** The repository's tests, replayed on the embedding *)

(** [TestScoringFunction]: the scores at 10%, 60%, 90% and 100%
    utilization, and their decrease along the sampled utilizations. *)
Example test_scoring_function :
  score_dimension (1 # 10) = 96%Z
  /\ score_dimension (6 # 10) = 70%Z
  /\ score_dimension (9 # 10) = 25%Z
  /\ score_dimension 1 = 0%Z
  /\ map score_dimension [1 # 10; 3 # 10; 5 # 10; 7 # 10; 9 # 10; 1]
     = [96; 88; 80; 60; 25; 0]%Z.
Proof. repeat split. Qed.

(** [TestFullAnalysisPipeline]: the simple token transfer scores at least
    [95] with the fallback hint and no violation; the marketplace
    transaction scores between [60] and [75] with more than one hint; the
    transaction at 96% utilization has the CPU and the memory
    violations. *)
Example test_full_analysis_pipeline :
  (exists a : Analysis.t,
     analyze_transaction 0 simple_token_transfer_sim default_config = Ok a
     /\ Analysis.scores a = Scores.mk 99 98 98 98
     /\ Analysis.hints a = [hint_excellent]
     /\ Analysis.safety_violations a = [])
  /\ (exists a : Analysis.t,
        analyze_transaction 0 complex_marketplace_sim default_config = Ok a
        /\ Analysis.scores a = Scores.mk 55 53 93 69
        /\ Analysis.hints a
           = ["HIGH CPU: Optimize hot loops and host function calls.";
              "CRITICAL: Memory usage at 76%. Optimize allocations."]%string
        /\ Analysis.safety_violations a = [])
  /\ (exists a : Analysis.t,
        analyze_transaction 0 safety_violation_sim default_config = Ok a
        /\ Analysis.safety_violations a = [violation_cpu; violation_memory]).
Proof.
  split; [| split]; eexists; (split; [vm_compute; reflexivity |]);
    repeat split.
Qed.

(* ------------------------------------------------------------------------- *)
(** ** Configurations and inputs outside the data model *)







(* ------------------------------------------------------------------------- *)
(** ** Properties of the dimension scorer *)



(** C7.  [score_dimension] is monotonic non-increasing: for non-negative
    utilization ratios [u1 < u2], the score of [u1] is at least the score
    of [u2]. *)
Theorem score_dimension_monotone (u1 u2 : Q) :
  0 <= u1 -> u1 < u2 -> (score_dimension u1 >= score_dimension u2)%Z.
Proof.
  intros _ H. apply Z.le_ge, score_dimension_antitone. qlra.
Qed.

(** C7 at the utilizations [0.45] and [0.55], on the two sides of the
    first threshold. *)
Lemma score_dimension_monotone_witness :
  (score_dimension (45 # 100) >= score_dimension (55 # 100))%Z.
Proof.
  apply (score_dimension_monotone (45 # 100) (55 # 100)).
  - discriminate.
  - reflexivity.
Defined.

(* ------------------------------------------------------------------------- *)
(** ** Properties of the aggregate score *)


(** The total [99] for the scores [100, 99, 100], whose weighted sum
    [99.8] is nearer to [100]. *)
Example compute_scores_truncates :
  let s := compute_scores (CPUCost.mk 0 0 0 0)
             (MemoryCost.mk 1048576 (1 # 40) {| scale := 100; exponent := 1 # 8 |})
             (LedgerCost.mk 0 0 []) in
  (Scores.cpu s, Scores.memory s, Scores.ledger s) = (100, 99, 100)%Z
  /\ Scores.total s = 99%Z
  /\ round_half_even ((2 # 5) * 100 + (1 # 5) * 99 + (2 # 5) * 100) = 100%Z.
Proof. repeat split. Qed.

(* ------------------------------------------------------------------------- *)
(** ** Properties of the CPU cost model *)



(* ------------------------------------------------------------------------- *)
(** ** Properties of the ledger cost model *)



(* ------------------------------------------------------------------------- *)
(** ** Properties of the memory cost model *)




(* ------------------------------------------------------------------------- *)
(** ** Properties of the safety check *)

(** C8.  The safety check of [analyze_transaction] appends a violation
    string naming dimension [d] if and only if the utilization of [d]
    strictly exceeds [0.95], where [d] ranges over the CPU utilization, the
    memory utilization and each of the five ledger breakdown utilizations;
    the check alters neither the fees nor the scores of the returned
    analysis, which are the values of the cost functions and of
    [compute_scores]. *)
Theorem safety_check_flags_exactly_above_margin
  (now : Z) (sim : SimulationResult) (c : SorobanConfig) (a : Analysis.t) :
  analyze_transaction now sim c = Ok a ->
  let cpu := Costs.cpu (Analysis.costs a) in
  let mem := Costs.memory (Analysis.costs a) in
  let ledger := Costs.ledger (Analysis.costs a) in
  let violations := Analysis.safety_violations a in
  compute_cpu_cost sim c = Ok cpu
  /\ compute_memory_cost sim c = Ok mem
  /\ compute_ledger_cost sim c = Ok ledger
  /\ Analysis.scores a = compute_scores cpu mem ledger
  /\ dict_keys (LedgerCost.breakdown ledger) = ledger_dimensions
  /\ (In violation_cpu violations <-> 95 # 100 < CPUCost.normalized cpu)
  /\ (In violation_memory violations <-> 95 # 100 < MemoryCost.normalized mem)
  /\ (forall dim u, In (dim, u) (LedgerCost.breakdown ledger) ->
        (In (violation_ledger dim) violations <-> 95 # 100 < u))
  /\ (forall v, In v violations ->
        v = violation_cpu \/ v = violation_memory
        \/ exists dim, In dim ledger_dimensions /\ v = violation_ledger dim)
  /\ violations
     = ((if Qltb (95 # 100) (CPUCost.normalized cpu) then [violation_cpu]
         else [])
        ++ (if Qltb (95 # 100) (MemoryCost.normalized mem)
            then [violation_memory] else [])
        ++ ledger_loop_violations (LedgerCost.breakdown ledger))%list.
Proof.
  intros H.
  destruct (analyze_transaction_inv now sim c a H)
    as (cpu & mem & ledger & hints & Hcpu & Hmem & Hled & _ & ->).
  cbn [Analysis.costs Analysis.scores Analysis.safety_violations
       Costs.cpu Costs.memory Costs.ledger].
  pose proof (compute_ledger_cost_keys sim c ledger Hled) as Hk.
  assert (Hnd : NoDup (dict_keys (LedgerCost.breakdown ledger))).
  { rewrite Hk. apply NoDup_ledger_dimensions. }
  repeat match goal with |- _ /\ _ => split end;
    try assumption; try reflexivity.
  - rewrite in_safety_check. split.
    + intros [[_ Hu] | [[E _] | (dim & u & _ & _ & E)]];
        [exact Hu | discriminate E | discriminate E].
    + intro Hu. left. now split.
  - rewrite in_safety_check. split.
    + intros [[E _] | [[_ Hu] | (dim & u & _ & _ & E)]];
        [discriminate E | exact Hu | discriminate E].
    + intro Hu. right. left. now split.
  - intros dim u Hin. rewrite in_safety_check. split.
    + intros [[E _] | [[E _] | (dim' & u' & Hin' & Hu' & E)]];
        [discriminate E | discriminate E |].
      apply violation_ledger_inj in E. subst dim'.
      pose proof (dict_get_in _ _ _ Hnd Hin) as G.
      pose proof (dict_get_in _ _ _ Hnd Hin') as G'.
      rewrite G in G'. injection G' as ->. exact Hu'.
    + intro Hu. right. right. now exists dim, u.
  - intros v Hv. apply in_safety_check in Hv.
    destruct Hv as [[-> _] | [[-> _] | (dim & u & Hin & _ & ->)]];
      [now left | now right; left |].
    right. right. exists dim. split; [| reflexivity].
    rewrite <- Hk. unfold dict_keys.
    change dim with (fst (dim, u)). now apply in_map.
  - apply safety_check_list.
Qed.

(** C8 at the transaction at 96% CPU and memory utilization. *)
Lemma safety_check_flags_exactly_above_margin_witness :
  exists a : Analysis.t,
    analyze_transaction 0 safety_violation_sim default_config = Ok a
    /\ In violation_cpu (Analysis.safety_violations a)
    /\ In violation_memory (Analysis.safety_violations a)
    /\ ~ In (violation_ledger "bandwidth") (Analysis.safety_violations a)
    /\ Scores.total (Analysis.scores a) = 46%Z.
Proof.
  destruct (analyze_transaction 0 safety_violation_sim default_config)
    as [a |] eqn:E; [| discriminate E].
  exists a. split; [reflexivity |].
  destruct (safety_check_flags_exactly_above_margin
              0 safety_violation_sim default_config a E)
    as (Hcpu & Hmem & Hled & Hs & _ & Hvc & Hvm & Hvl & _ & _).
  vm_compute in E. injection E as <-.
  split; [apply Hvc; reflexivity |].
  split; [apply Hvm; reflexivity |].
  split; [| reflexivity].
  intro Hin.
  apply (Hvl "bandwidth"%string (0 / 100000)) in Hin; [discriminate Hin |].
  simpl. do 4 right. left. reflexivity.
Defined.

(* ------------------------------------------------------------------------- *)
(** ** Properties of the hint generator *)

(** C9.  [generate_hints] evaluates its rules in the fixed order (CPU
    thresholds, ledger pressure, memory thresholds, the five ledger
    dimensions in the fixed enumeration order [read_entries], [read_bytes],
    [write_entries], [write_bytes], [bandwidth], then the cross-dimension
    CPU + reads rule), includes every message whose rule fired in that
    order, and returns the single fallback message if and only if no rule
    fired, so that the result is never empty. *)
Theorem generate_hints_rule_order
  (cpu : CPUCost.t) (mem : MemoryCost.t) (ledger : LedgerCost.t) :
  dict_keys (LedgerCost.breakdown ledger) = ledger_dimensions ->
  exists hints : list string,
    generate_hints cpu mem ledger = Ok hints
    /\ (fired_rules cpu mem ledger <> [] -> hints = fired_rules cpu mem ledger)
    /\ (hints = [hint_excellent] <-> fired_rules cpu mem ledger = [])
    /\ hints <> [].
Proof.
  intro Hk. eexists. split; [apply (generate_hints_spec cpu mem ledger Hk) |].
  pose proof (hint_excellent_not_fired cpu mem ledger) as Hne.
  destruct (fired_rules cpu mem ledger) as [| m fired] eqn:F.
  - split; [congruence |]. split; [tauto | discriminate].
  - split; [reflexivity |]. split; [| discriminate].
    split; [| discriminate].
    intro E. injection E as -> ->. exfalso. apply Hne. now left.
Qed.

(** C9 at costs for which four of the five rules fire. *)
Lemma generate_hints_rule_order_witness :
  generate_hints
    (CPUCost.mk (85 # 1000) (85 # 100) (3 # 5) (85 # 1000))
    (MemoryCost.mk 25165824 (6 # 10) {| scale := 100; exponent := 3 |})
    (LedgerCost.mk 0 (32 # 100)
       [("read_entries", 6 # 10); ("read_bytes", 0); ("write_entries", 0);
        ("write_bytes", 8 # 10); ("bandwidth", 2 # 10)]%string)
  = Ok ["CRITICAL: CPU usage at 85%. Reduce instruction count.";
        "High ledger CPU pressure (77.5%).";
        "MODERATE memory usage. Review data structure sizes.";
        "HIGH write byte volume. Consider batching or compression.";
        "TIP: High CPU + reads. Check for redundant storage accesses."]%string.
Proof.
  destruct (generate_hints_rule_order
              (CPUCost.mk (85 # 1000) (85 # 100) (3 # 5) (85 # 1000))
              (MemoryCost.mk 25165824 (6 # 10) {| scale := 100; exponent := 3 |})
              (LedgerCost.mk 0 (32 # 100)
                 [("read_entries", 6 # 10); ("read_bytes", 0);
                  ("write_entries", 0); ("write_bytes", 8 # 10);
                  ("bandwidth", 2 # 10)]%string))
    as (hints & Hg & Hfired & _).
  - reflexivity.
  - rewrite Hg, Hfired; [reflexivity | discriminate].
Defined.

(* ------------------------------------------------------------------------- *)
(** * Further properties of the code *)

(** ** The interpolation helper *)


Lemma Qdiv_le_compat_pos (x y z : Q) : 0 < z -> x <= y -> x / z <= y / z.
Proof.
  intros Hz Hxy. unfold Qdiv.
  apply Qmult_le_compat_r; [exact Hxy |].
  apply Qlt_le_weak, Qinv_lt_0_compat, Hz.
Qed.

Lemma Qeq_bool_false (x y : Q) : ~ x == y -> Qeq_bool x y = false.
Proof.
  intro H. destruct (Qeq_bool x y) eqn:E; [| reflexivity].
  apply Qeq_bool_iff in E. contradiction.
Qed.

Lemma _interpolate_eq (v a b c d : Q) :
  ~ b == a ->
  _interpolate v a b c d = c + (v - a) / (b - a) * (d - c).
Proof.
  intro H. unfold _interpolate. now rewrite (Qeq_bool_false _ _ H).
Qed.

(** A falling interpolation ([out_max <= out_min]) is non-increasing in
    its argument. *)
Lemma _interpolate_antitone (v1 v2 a b c d : Q) :
  a < b -> d <= c -> v1 <= v2 ->
  _interpolate v2 a b c d <= _interpolate v1 a b c d.
Proof.
  intros Hab Hdc Hv.
  assert (Hne : ~ b == a) by (intro E; rewrite E in Hab; exact (Qlt_irrefl _ Hab)).
  rewrite !(_interpolate_eq _ _ _ _ _ Hne).
  assert (Hr : (v1 - a) / (b - a) <= (v2 - a) / (b - a))
    by (apply Qdiv_le_compat_pos; qlra).
  set (r1 := (v1 - a) / (b - a)) in *.
  set (r2 := (v2 - a) / (b - a)) in *.
  assert (H0 : 0 <= (r2 - r1) * (c - d)) by (apply Qmult_le_0_compat; qlra).
  qlra.
Qed.

Lemma _interpolate_at_in_min (a b c d : Q) :
  ~ b == a -> _interpolate a a b c d == c.
Proof.
  intro Hne. rewrite (_interpolate_eq _ _ _ _ _ Hne).
  assert (Hba : ~ b - a == 0) by (intro E; apply Hne; qlra).
  field. exact Hba.
Qed.

Lemma _interpolate_at_in_max (a b c d : Q) :
  ~ b == a -> _interpolate b a b c d == d.
Proof.
  intro Hne. rewrite (_interpolate_eq _ _ _ _ _ Hne).
  assert (Hba : ~ b - a == 0) by (intro E; apply Hne; qlra).
  field. exact Hba.
Qed.



(* ------------------------------------------------------------------------- *)
(** ** The scoring function with thresholds other than the defaults *)

Lemma score_dimension_with_raw (u lo hi : Q) :
  score_dimension_with u lo hi = clamp 0 100 (Qfloor (raw_score u lo hi)).
Proof.
  unfold score_dimension_with, raw_score. apply py_int_clamp.
Qed.

Lemma clamp_floor_ge (x : Q) (n : Z) :
  (0 <= n <= 100)%Z -> inject_Z n <= x -> (n <= clamp 0 100 (Qfloor x))%Z.
Proof.
  intros Hn Hx.
  apply Qfloor_resp_le in Hx. rewrite Qfloor_Z in Hx.
  unfold clamp. lia.
Qed.

Lemma clamp_floor_le (x : Q) (n : Z) :
  (0 <= n <= 100)%Z -> x <= inject_Z n -> (clamp 0 100 (Qfloor x) <= n)%Z.
Proof.
  intros Hn Hx.
  apply Qfloor_resp_le in Hx. rewrite Qfloor_Z in Hx.
  unfold clamp. lia.
Qed.

Lemma Qlt_neq_sym (a b : Q) : a < b -> ~ b == a.
Proof.
  intros H E. rewrite E in H. exact (Qlt_irrefl _ H).
Qed.

(** The three bands of the raw score, for thresholds
    [0 < threshold_low < threshold_high <= 1]. *)
Lemma raw_score_low (u lo hi : Q) :
  0 < lo -> u < lo ->
  80 <= raw_score u lo hi /\ (0 <= u -> raw_score u lo hi <= 100)
  /\ (u <= 0 -> 100 <= raw_score u lo hi).
Proof.
  intros Hlo Hu. unfold raw_score.
  apply Qltb_true in Hu. rewrite Hu. apply Qltb_true in Hu.
  pose proof (_interpolate_at_in_min 0 lo 100 80 (Qlt_neq_sym _ _ Hlo)) as H0.
  pose proof (_interpolate_at_in_max 0 lo 100 80 (Qlt_neq_sym _ _ Hlo)) as H1.
  repeat match goal with |- _ /\ _ => split end.
  - assert (HA : _interpolate lo 0 lo 100 80 <= _interpolate u 0 lo 100 80)
      by (apply _interpolate_antitone; qlra).
    qlra.
  - intro H.
    assert (HA : _interpolate u 0 lo 100 80 <= _interpolate 0 0 lo 100 80)
      by (apply _interpolate_antitone; qlra).
    qlra.
  - intro H.
    assert (HA : _interpolate 0 0 lo 100 80 <= _interpolate u 0 lo 100 80)
      by (apply _interpolate_antitone; qlra).
    qlra.
Qed.

Lemma raw_score_mid (u lo hi : Q) :
  lo <= u -> u < hi -> 50 <= raw_score u lo hi <= 80.
Proof.
  intros Hlo Hu. unfold raw_score.
  assert (Hlh : lo < hi) by qlra.
  apply Qltb_false in Hlo. rewrite Hlo. apply Qltb_false in Hlo.
  apply Qltb_true in Hu. rewrite Hu. apply Qltb_true in Hu.
  pose proof (_interpolate_at_in_min lo hi 80 50 (Qlt_neq_sym _ _ Hlh)) as H0.
  pose proof (_interpolate_at_in_max lo hi 80 50 (Qlt_neq_sym _ _ Hlh)) as H1.
  assert (HA : _interpolate hi lo hi 80 50 <= _interpolate u lo hi 80 50)
    by (apply _interpolate_antitone; qlra).
  assert (HB : _interpolate u lo hi 80 50 <= _interpolate lo lo hi 80 50)
    by (apply _interpolate_antitone; qlra).
  split; qlra.
Qed.

Lemma raw_score_high (u lo hi : Q) :
  lo <= hi -> hi <= 1 -> hi <= u ->
  raw_score u lo hi <= 50 /\ (hi < 1 -> 1 <= u -> raw_score u lo hi <= 0).
Proof.
  intros Hlh Hhi Hu. unfold raw_score.
  assert (Hlo : lo <= u) by qlra.
  apply Qltb_false in Hlo. rewrite Hlo.
  apply Qltb_false in Hu. rewrite Hu. apply Qltb_false in Hu.
  destruct (Qeq_dec 1 hi) as [E | Hne].
  - split.
    + unfold _interpolate. apply Qeq_bool_iff in E. rewrite E. qlra.
    + intro H. rewrite E in H. exfalso. exact (Qlt_irrefl _ H).
  - assert (Hh1 : hi < 1).
    { apply Qle_lteq in Hhi. destruct Hhi as [H | H]; [exact H |].
      exfalso. apply Hne. symmetry. exact H. }
    pose proof (_interpolate_at_in_min hi 1 50 0 Hne) as H0.
    pose proof (_interpolate_at_in_max hi 1 50 0 Hne) as H1.
    split.
    + assert (HA : _interpolate u hi 1 50 0 <= _interpolate hi hi 1 50 0)
        by (apply _interpolate_antitone; qlra).
      qlra.
    + intros _ H.
      assert (HA : _interpolate u hi 1 50 0 <= _interpolate 1 hi 1 50 0)
        by (apply _interpolate_antitone; qlra).
      qlra.
Qed.

Lemma raw_score_antitone (u1 u2 lo hi : Q) :
  0 < lo -> lo < hi -> hi <= 1 -> u1 <= u2 ->
  raw_score u2 lo hi <= raw_score u1 lo hi.
Proof.
  intros Hlo Hlh Hhi Hu.
  destruct (Qlt_le_dec u2 lo) as [H2l | H2l].
  - (* both in the first band *)
    assert (H1l : u1 < lo) by qlra.
    unfold raw_score.
    apply Qltb_true in H1l, H2l. rewrite H1l, H2l.
    apply _interpolate_antitone; qlra.
  - destruct (Qlt_le_dec u2 hi) as [H2h | H2h].
    + (* u2 in the second band *)
      destruct (Qlt_le_dec u1 lo) as [H1l | H1l].
      * destruct (raw_score_low u1 lo hi Hlo H1l) as (H & _ & _).
        destruct (raw_score_mid u2 lo hi H2l H2h) as (_ & H').
        qlra.
      * assert (H1h : u1 < hi) by qlra.
        unfold raw_score.
        apply Qltb_false in H1l, H2l. rewrite H1l, H2l.
        apply Qltb_true in H1h, H2h. rewrite H1h, H2h.
        apply _interpolate_antitone; qlra.
    + (* u2 in the third band *)
      assert (Hlh' : lo <= hi) by qlra.
      destruct (raw_score_high u2 lo hi Hlh' Hhi H2h) as (H' & _).
      destruct (Qlt_le_dec u1 lo) as [H1l | H1l].
      * destruct (raw_score_low u1 lo hi Hlo H1l) as (H & _ & _). qlra.
      * destruct (Qlt_le_dec u1 hi) as [H1h | H1h].
        -- destruct (raw_score_mid u1 lo hi H1l H1h) as (H & _). qlra.
        -- unfold raw_score.
           apply Qltb_false in H1l, H2l. rewrite H1l, H2l.
           apply Qltb_false in H1h, H2h. rewrite H1h, H2h.
           apply Qltb_false in H1h.
           destruct (Qeq_dec 1 hi) as [E | Hne].
           ++ unfold _interpolate. apply Qeq_bool_iff in E. rewrite E. qlra.
           ++ assert (Hh1 : hi < 1).
              { apply Qle_lteq in Hhi. destruct Hhi as [H | H]; [exact H |].
                exfalso. apply Hne. symmetry. exact H. }
              apply _interpolate_antitone; qlra.
Qed.

(** X2. Whatever the utilization and the two thresholds are (negative,
    above one, equal, in the wrong order), [score_dimension] returns an
    integer from 0 to 100. *)
Theorem score_dimension_with_range (u lo hi : Q) :
  (0 <= score_dimension_with u lo hi <= 100)%Z.
Proof.
  rewrite score_dimension_with_raw. apply clamp_range.
Qed.

(** X3. For any thresholds [0 < threshold_low < threshold_high < 1] the
    score is 100 at utilization 0 and below, 80 at [threshold_low], 50 at
    [threshold_high], 0 at utilization 1 and above, and stays within
    [80, 100], [50, 80] and [0, 50] on the three bands. *)
Theorem score_dimension_with_bands (u lo hi : Q) :
  0 < lo -> lo < hi -> hi < 1 ->
  score_dimension_with 0 lo hi = 100%Z
  /\ score_dimension_with lo lo hi = 80%Z
  /\ score_dimension_with hi lo hi = 50%Z
  /\ score_dimension_with 1 lo hi = 0%Z
  /\ (u <= 0 -> score_dimension_with u lo hi = 100%Z)
  /\ (0 <= u -> u < lo -> (80 <= score_dimension_with u lo hi <= 100)%Z)
  /\ (lo <= u -> u < hi -> (50 <= score_dimension_with u lo hi <= 80)%Z)
  /\ (hi <= u -> (0 <= score_dimension_with u lo hi <= 50)%Z)
  /\ (1 <= u -> score_dimension_with u lo hi = 0%Z).
Proof.
  intros Hlo Hlh Hhi.
  assert (Hlh' : lo <= hi) by qlra.
  assert (Hhi' : hi <= 1) by qlra.
  assert (Hbelow : forall v, v <= 0 -> score_dimension_with v lo hi = 100%Z).
  { intros v Hv. assert (Hvl : v < lo) by qlra.
    destruct (raw_score_low v lo hi Hlo Hvl) as (_ & _ & H).
    rewrite score_dimension_with_raw.
    pose proof (clamp_range (Qfloor (raw_score v lo hi))) as Hr.
    pose proof (clamp_floor_ge (raw_score v lo hi) 100 ltac:(lia) (H Hv)). lia. }
  assert (Habove : forall v, 1 <= v -> score_dimension_with v lo hi = 0%Z).
  { intros v Hv. assert (Hvh : hi <= v) by qlra.
    destruct (raw_score_high v lo hi Hlh' Hhi' Hvh) as (_ & H).
    rewrite score_dimension_with_raw.
    pose proof (clamp_range (Qfloor (raw_score v lo hi))) as Hr.
    pose proof (clamp_floor_le (raw_score v lo hi) 0 ltac:(lia) (H Hhi Hv)). lia. }
  repeat match goal with |- _ /\ _ => split end.
  - apply Hbelow. qlra.
  - rewrite score_dimension_with_raw. unfold raw_score.
    assert (E1 : Qltb lo lo = false) by (apply Qltb_false; qlra).
    assert (E2 : Qltb lo hi = true) by (now apply Qltb_true).
    rewrite E1, E2.
    rewrite (_interpolate_at_in_min lo hi 80 50 (Qlt_neq_sym _ _ Hlh)).
    reflexivity.
  - rewrite score_dimension_with_raw. unfold raw_score.
    assert (E1 : Qltb hi lo = false) by (apply Qltb_false; qlra).
    assert (E2 : Qltb hi hi = false) by (apply Qltb_false; qlra).
    rewrite E1, E2.
    rewrite (_interpolate_at_in_min hi 1 50 0 (Qlt_neq_sym _ _ Hhi)).
    reflexivity.
  - apply Habove. qlra.
  - apply Hbelow.
  - intros Hu0 Hul.
    destruct (raw_score_low u lo hi Hlo Hul) as (H1 & H2 & _).
    rewrite score_dimension_with_raw. split.
    + apply clamp_floor_ge; [lia | exact H1].
    + apply clamp_range.
  - intros Hul Huh.
    destruct (raw_score_mid u lo hi Hul Huh) as (H1 & H2).
    rewrite score_dimension_with_raw. split.
    + apply clamp_floor_ge; [lia | exact H1].
    + apply clamp_floor_le; [lia | exact H2].
  - intros Huh.
    destruct (raw_score_high u lo hi Hlh' Hhi' Huh) as (H1 & _).
    rewrite score_dimension_with_raw. split.
    + apply clamp_range.
    + apply clamp_floor_le; [lia | exact H1].
  - apply Habove.
Qed.

Lemma score_dimension_with_bands_witness :
  score_dimension_with (3 # 10) (3 # 10) (6 # 10) = 80%Z
  /\ score_dimension_with (6 # 10) (3 # 10) (6 # 10) = 50%Z
  /\ score_dimension_with (5 # 4) (3 # 10) (6 # 10) = 0%Z.
Proof.
  assert (H1 : 0 < 3 # 10) by reflexivity.
  assert (H2 : 3 # 10 < 6 # 10) by reflexivity.
  assert (H3 : 6 # 10 < 1) by reflexivity.
  destruct (score_dimension_with_bands (5 # 4) (3 # 10) (6 # 10) H1 H2 H3)
    as (_ & Hlo & Hhi & _ & _ & _ & _ & _ & Hover).
  split; [exact Hlo | split; [exact Hhi |]].
  apply Hover. intro E; discriminate E.
Defined.

(** X4. For any thresholds [0 < threshold_low < threshold_high <= 1] the
    score never increases when the utilization increases. *)
Theorem score_dimension_with_antitone (u1 u2 lo hi : Q) :
  0 < lo -> lo < hi -> hi <= 1 -> u1 <= u2 ->
  (score_dimension_with u2 lo hi <= score_dimension_with u1 lo hi)%Z.
Proof.
  intros Hlo Hlh Hhi Hu.
  rewrite !score_dimension_with_raw.
  apply clamp_mono, Qfloor_resp_le, raw_score_antitone; assumption.
Qed.

Lemma score_dimension_with_antitone_witness :
  (score_dimension_with (7 # 10) (3 # 10) (6 # 10)
   <= score_dimension_with (5 # 10) (3 # 10) (6 # 10))%Z.
Proof.
  apply score_dimension_with_antitone.
  - reflexivity.
  - reflexivity.
  - intro E; discriminate E.
  - intro E; discriminate E.
Defined.

(** X5. The guard of [_interpolate] decides the score at degenerate
    thresholds: with [threshold_high = 1.0] every utilization of 1 or
    more scores 50 (not 0), and with [threshold_low = 0] every negative
    utilization scores 100. *)
Theorem score_dimension_degenerate_thresholds (u lo hi : Q) :
  (lo <= 1 -> 1 <= u -> score_dimension_with u lo 1 = 50%Z)
  /\ (u < 0 -> score_dimension_with u 0 hi = 100%Z).
Proof.
  split.
  - intros Hlo Hu. unfold score_dimension_with.
    assert (E1 : Qltb u lo = false) by (apply Qltb_false; qlra).
    assert (E2 : Qltb u 1 = false) by (apply Qltb_false; qlra).
    rewrite E1, E2. reflexivity.
  - intro Hu. unfold score_dimension_with.
    apply Qltb_true in Hu. rewrite Hu. reflexivity.
Qed.

Lemma score_dimension_degenerate_thresholds_witness :
  score_dimension_with (3 # 2) (1 # 2) 1 = 50%Z
  /\ score_dimension_with (3 # 2) (1 # 2) (4 # 5) = 0%Z
  /\ score_dimension_with (- (1 # 10)) 0 (4 # 5) = 100%Z.
Proof.
  split; [| split].
  - apply (score_dimension_degenerate_thresholds (3 # 2) (1 # 2) 1);
      intro E; discriminate E.
  - reflexivity.
  - apply (score_dimension_degenerate_thresholds (- (1 # 10)) 0 (4 # 5)).
    reflexivity.
Defined.

(* ------------------------------------------------------------------------- *)
(** ** The aggregate score *)

Lemma compute_scores_total_eq
  (cpu : CPUCost.t) (mem : MemoryCost.t) (ledger : LedgerCost.t) :
  Scores.total (compute_scores cpu mem ledger)
  = Qfloor ((2 # 5) * inject_Z (score_dimension (CPUCost.normalized cpu))
            + (1 # 5) * inject_Z (score_dimension (MemoryCost.normalized mem))
            + (2 # 5) * inject_Z (score_dimension (LedgerCost.normalized ledger))).
Proof.
  unfold compute_scores. cbn [Scores.total].
  change (score_weight "cpu") with (2 # 5).
  change (score_weight "memory") with (1 # 5).
  change (score_weight "ledger") with (2 # 5).
  apply py_int_floor.
  pose proof (score_dimension_range (CPUCost.normalized cpu)) as [H1 _].
  pose proof (score_dimension_range (MemoryCost.normalized mem)) as [H2 _].
  pose proof (score_dimension_range (LedgerCost.normalized ledger)) as [H3 _].
  rewrite Zle_Qle in H1, H2, H3. change (inject_Z 0) with 0 in H1, H2, H3.
  qlra.
Qed.

(** The floor of the weighted sum of three integers lies between any
    common lower and upper bound of the three. *)
Lemma weighted_floor_bounds (a b c lo hi : Z) :
  (lo <= a)%Z -> (lo <= b)%Z -> (lo <= c)%Z ->
  (a <= hi)%Z -> (b <= hi)%Z -> (c <= hi)%Z ->
  (lo <= Qfloor ((2 # 5) * inject_Z a + (1 # 5) * inject_Z b
                 + (2 # 5) * inject_Z c) <= hi)%Z.
Proof.
  intros La Lb Lc Ha Hb Hc.
  rewrite Zle_Qle in La, Lb, Lc, Ha, Hb, Hc.
  split.
  - apply Z.le_trans with (Qfloor (inject_Z lo)).
    + rewrite Qfloor_Z. lia.
    + apply Qfloor_resp_le. qlra.
  - apply Z.le_trans with (Qfloor (inject_Z hi)).
    + apply Qfloor_resp_le. qlra.
    + rewrite Qfloor_Z. lia.
Qed.

(** X6. The total score is a weighted mean truncated to an integer: it
    lies between the least and the greatest of the three dimension scores,
    and all four scores are integers from 0 to 100. *)
Theorem compute_scores_total_bounds
  (cpu : CPUCost.t) (mem : MemoryCost.t) (ledger : LedgerCost.t) :
  let s := compute_scores cpu mem ledger in
  (Z.min (Scores.cpu s) (Z.min (Scores.memory s) (Scores.ledger s))
   <= Scores.total s
   <= Z.max (Scores.cpu s) (Z.max (Scores.memory s) (Scores.ledger s)))%Z
  /\ (0 <= Scores.cpu s <= 100)%Z
  /\ (0 <= Scores.memory s <= 100)%Z
  /\ (0 <= Scores.ledger s <= 100)%Z
  /\ (0 <= Scores.total s <= 100)%Z.
Proof.
  intro s.
  pose proof (compute_scores_total_eq cpu mem ledger) as Ht.
  fold s in Ht.
  pose proof (score_dimension_range (CPUCost.normalized cpu)) as H1.
  pose proof (score_dimension_range (MemoryCost.normalized mem)) as H2.
  pose proof (score_dimension_range (LedgerCost.normalized ledger)) as H3.
  change (Scores.cpu s) with (score_dimension (CPUCost.normalized cpu)).
  change (Scores.memory s) with (score_dimension (MemoryCost.normalized mem)).
  change (Scores.ledger s) with (score_dimension (LedgerCost.normalized ledger)).
  rewrite Ht.
  set (a := score_dimension (CPUCost.normalized cpu)) in *.
  set (b := score_dimension (MemoryCost.normalized mem)) in *.
  set (c := score_dimension (LedgerCost.normalized ledger)) in *.
  pose proof (weighted_floor_bounds a b c
                (Z.min a (Z.min b c)) (Z.max a (Z.max b c))
                ltac:(lia) ltac:(lia) ltac:(lia)
                ltac:(lia) ltac:(lia) ltac:(lia)) as Hb.
  lia.
Qed.

(** X7. Scores fall when utilization rises: if each of the three
    normalized utilizations of one cost triple is at most that of another,
    each of its four scores, the total included, is at least the
    other's. *)
Theorem compute_scores_antitone
  (cpu cpu' : CPUCost.t) (mem mem' : MemoryCost.t) (ledger ledger' : LedgerCost.t) :
  CPUCost.normalized cpu <= CPUCost.normalized cpu' ->
  MemoryCost.normalized mem <= MemoryCost.normalized mem' ->
  LedgerCost.normalized ledger <= LedgerCost.normalized ledger' ->
  let s := compute_scores cpu mem ledger in
  let s' := compute_scores cpu' mem' ledger' in
  (Scores.cpu s' <= Scores.cpu s)%Z
  /\ (Scores.memory s' <= Scores.memory s)%Z
  /\ (Scores.ledger s' <= Scores.ledger s)%Z
  /\ (Scores.total s' <= Scores.total s)%Z.
Proof.
  intros Hc Hm Hl s s'.
  pose proof (score_dimension_antitone _ _ Hc) as H1.
  pose proof (score_dimension_antitone _ _ Hm) as H2.
  pose proof (score_dimension_antitone _ _ Hl) as H3.
  repeat match goal with |- _ /\ _ => split end;
    [exact H1 | exact H2 | exact H3 |].
  unfold s, s'. rewrite !compute_scores_total_eq.
  apply Qfloor_resp_le.
  rewrite Zle_Qle in H1, H2, H3. qlra.
Qed.

Lemma compute_scores_antitone_witness :
  (Scores.total
     (compute_scores (CPUCost.mk 0 (9 # 10) 0 0)
        (MemoryCost.mk 0 (1 # 2) {| scale := 100; exponent := 5 # 2 |})
        (LedgerCost.mk 0 (3 # 10) []))
   <= Scores.total
        (compute_scores (CPUCost.mk 0 (6 # 10) 0 0)
           (MemoryCost.mk 0 (1 # 10) {| scale := 100; exponent := 1 # 2 |})
           (LedgerCost.mk 0 (3 # 10) [])))%Z.
Proof.
  apply (compute_scores_antitone
           (CPUCost.mk 0 (6 # 10) 0 0) (CPUCost.mk 0 (9 # 10) 0 0)
           (MemoryCost.mk 0 (1 # 10) {| scale := 100; exponent := 1 # 2 |})
           (MemoryCost.mk 0 (1 # 2) {| scale := 100; exponent := 5 # 2 |})
           (LedgerCost.mk 0 (3 # 10) []) (LedgerCost.mk 0 (3 # 10) []));
    intro E; discriminate E.
Defined.

(* ------------------------------------------------------------------------- *)
(** ** The CPU cost model on positive instruction counts *)


Lemma Zpos_nonzero (z : Z) : (0 < z)%Z -> z <> 0%Z.
Proof. lia. Qed.











(* ------------------------------------------------------------------------- *)
(** ** Growth of the memory penalty *)






(* ------------------------------------------------------------------------- *)
(** ** The composite ledger utilization *)

Lemma compute_ledger_cost_inv
  (sim : SimulationResult) (c : SorobanConfig) (cost : LedgerCost.t) :
  compute_ledger_cost sim c = Ok cost ->
  nonzero (ledger_divisors c)
  /\ exists u1 u2 u3 u4 u5 : Q,
       u1 = inject_Z (len (readOnly (footprint (resources sim))))
            / inject_Z (txMaxReadLedgerEntries c)
       /\ u2 = inject_Z (readBytes (resources sim)) / inject_Z (txMaxReadBytes c)
       /\ u3 = inject_Z (len (readWrite (footprint (resources sim))))
               / inject_Z (txMaxWriteLedgerEntries c)
       /\ u4 = inject_Z (writeBytes (resources sim)) / inject_Z (txMaxWriteBytes c)
       /\ u5 = inject_Z (transactionSizeBytes sim) / inject_Z (txMaxSizeBytes c)
       /\ LedgerCost.breakdown cost
          = [("read_entries", u1); ("read_bytes", u2); ("write_entries", u3);
             ("write_bytes", u4); ("bandwidth", u5)]%string
       /\ LedgerCost.normalized cost
          = weighted_sum [u1; u2; u3; u4; u5] LEDGER_WEIGHTS.
Proof.
  intro E.
  destruct (nonzero_or_some_zero (ledger_divisors c)) as [Hnz | Hz].
  - split; [exact Hnz |].
    pose proof (compute_ledger_cost_ok sim c Hnz) as E'.
    cbv zeta in E'. rewrite E' in E. injection E as <-.
    do 5 eexists.
    do 5 (split; [reflexivity |]).
    split; reflexivity.
  - rewrite (compute_ledger_cost_zero sim c Hz) in E. discriminate.
Qed.







(* ------------------------------------------------------------------------- *)
(** ** The hint generator on hand-built cost records *)

Lemma dict_get_error {V : Type} (d : dict V) (k : string) (e : exn) :
  dict_get d k = Err e -> e = KeyError k.
Proof.
  induction d as [| [k' v] d IH]; simpl.
  - intro H. now injection H as <-.
  - destruct (String.eqb k' k); [discriminate | exact IH].
Qed.

Lemma labelled_true (key : string) :
  labelled key = true ->
  dict_get ledger_labels key = Ok (dimension_label key).
Proof.
  unfold labelled, dimension_label.
  destruct (dict_get ledger_labels key); [reflexivity | discriminate].
Qed.

Lemma labelled_false (key : string) :
  labelled key = false ->
  dict_get ledger_labels key = Err (KeyError key).
Proof.
  unfold labelled.
  destruct (dict_get ledger_labels key) as [| e] eqn:E; [discriminate |].
  intros _. now rewrite (dict_get_error _ _ _ E).
Qed.

Lemma has_key_false {V : Type} (d : dict V) (key : string) :
  has_key d key = false -> dict_get d key = Err (KeyError key).
Proof.
  unfold has_key.
  destruct (dict_get d key) as [| e] eqn:E; [discriminate |].
  intros _. now rewrite (dict_get_error _ _ _ E).
Qed.

(** The loop over the breakdown succeeds when every item above 0.75 has a
    label, and then appends one message per such item. *)
Lemma ledger_hints_loop_labelled (items : dict Q) (hints : list string) :
  (forall key u, In (key, u) items -> 3 # 4 < u -> labelled key = true) ->
  ledger_hints_loop items hints = Ok (hints ++ ledger_loop_hints items).
Proof.
  revert hints. induction items as [| [k u] items IH]; intros hints Hl.
  - simpl. now rewrite app_nil_r.
  - cbn [ledger_hints_loop ledger_loop_hints flat_map fst snd].
    assert (Hl' : forall key u0, In (key, u0) items -> 3 # 4 < u0 ->
                                 labelled key = true)
      by (intros key u0 Hin; apply Hl; now right).
    destruct (Qltb_spec (3 # 4) u) as [Hu | Hu].
    + rewrite (labelled_true k (Hl k u (or_introl eq_refl) Hu)).
      cbn [bind]. rewrite (IH _ Hl'). unfold list_append.
      now rewrite <- app_assoc.
    + now rewrite (IH _ Hl').
Qed.

(** The loop fails only at an item above 0.75 whose key has no label. *)
Lemma ledger_hints_loop_error (items : dict Q) (hints : list string) (e : exn) :
  ledger_hints_loop items hints = Err e ->
  exists key u,
    In (key, u) items /\ 3 # 4 < u /\ labelled key = false /\ e = KeyError key.
Proof.
  revert hints. induction items as [| [k u] items IH]; intros hints H.
  - discriminate H.
  - cbn [ledger_hints_loop] in H.
    destruct (Qltb_spec (3 # 4) u) as [Hu | Hu].
    + destruct (labelled k) eqn:El.
      * rewrite (labelled_true k El) in H. cbn [bind] in H.
        destruct (IH _ H) as (key & u0 & Hin & H1 & H2 & H3).
        exists key, u0. repeat split; try assumption. now right.
      * rewrite (labelled_false k El) in H. cbn [bind] in H.
        injection H as <-. exists k, u.
        repeat split; try assumption. now left.
    + destruct (IH _ H) as (key & u0 & Hin & H1 & H2 & H3).
      exists key, u0. repeat split; try assumption. now right.
Qed.

Lemma ledger_loop_hints_length (items : dict Q) :
  (List.length (ledger_loop_hints items) <= List.length items)%nat.
Proof.
  induction items as [| [k u] items IH]; [apply le_n |].
  cbn [ledger_loop_hints flat_map fst snd].
  fold (ledger_loop_hints items).
  destruct (Qltb (3 # 4) u); simpl; lia.
Qed.

(** The hints collected before the loop over the breakdown. *)
Lemma generate_hints_unfold
  (cpu : CPUCost.t) (mem : MemoryCost.t) (ledger : LedgerCost.t) :
  generate_hints cpu mem ledger
  = (hints <- ledger_hints_loop (LedgerCost.breakdown ledger)
                (rule_cpu cpu ++ rule_ledger_pressure cpu ++ rule_memory mem) ;;
     hints <-
       (if Qltb (7 # 10) (CPUCost.normalized cpu) then
          read_entries <- dict_get (LedgerCost.breakdown ledger) "read_entries" ;;
          if Qltb (1 # 2) read_entries
          then Ok (hints ++ [hint_cpu_reads])%list
          else Ok hints
        else Ok hints) ;;
     Ok (match hints with
         | [] => [hint_excellent]
         | _ :: _ => hints
         end)).
Proof.
  unfold generate_hints. cbv zeta.
  match goal with
  | |- context [ledger_hints_loop _ ?h] =>
      assert (E : h = (rule_cpu cpu ++ rule_ledger_pressure cpu
                       ++ rule_memory mem)%list)
  end.
  { unfold rule_cpu, rule_ledger_pressure, rule_memory, list_append.
    destruct (Qltb (4 # 5) (CPUCost.normalized cpu));
      destruct (Qltb (3 # 5) (CPUCost.normalized cpu));
      destruct (Qltb (1 # 2) (CPUCost.ledger_pressure cpu));
      destruct (Qltb (7 # 10) (MemoryCost.normalized mem));
      destruct (Qltb (1 # 2) (MemoryCost.normalized mem)); reflexivity. }
  rewrite E. clear E. unfold list_append.
  destruct (ledger_hints_loop (LedgerCost.breakdown ledger) _) as [hints | e];
    [| reflexivity].
  cbn [bind].
  destruct (Qltb (7 # 10) (CPUCost.normalized cpu)).
  - destruct (dict_get (LedgerCost.breakdown ledger) "read_entries") as [r | e];
      [| reflexivity].
    cbn [bind]. destruct (Qltb (1 # 2) r); cbn [bind].
    + destruct (hints ++ [hint_cpu_reads])%list; reflexivity.
    + destruct hints; reflexivity.
  - cbn [bind]. destruct hints; reflexivity.
Qed.

Lemma rules_before_loop_length (cpu : CPUCost.t) (mem : MemoryCost.t) :
  (List.length (rule_cpu cpu ++ rule_ledger_pressure cpu ++ rule_memory mem)
   <= 3)%nat.
Proof.
  unfold rule_cpu, rule_ledger_pressure, rule_memory.
  destruct (Qltb (4 # 5) (CPUCost.normalized cpu));
    destruct (Qltb (3 # 5) (CPUCost.normalized cpu));
    destruct (Qltb (1 # 2) (CPUCost.ledger_pressure cpu));
    destruct (Qltb (7 # 10) (MemoryCost.normalized mem));
    destruct (Qltb (1 # 2) (MemoryCost.normalized mem)); simpl; lia.
Qed.

(** X13. On a hand-built [LedgerCost], [generate_hints] can only fail
    with [KeyError], in one of two ways: a breakdown item above 0.75 whose
    key is not one of the five labelled dimensions, or a CPU utilization
    above 0.7 with a breakdown that has no ['read_entries'] key. *)
Theorem generate_hints_raises_only_KeyError
  (cpu : CPUCost.t) (mem : MemoryCost.t) (ledger : LedgerCost.t) (e : exn) :
  generate_hints cpu mem ledger = Err e ->
  (exists key u,
      In (key, u) (LedgerCost.breakdown ledger)
      /\ 3 # 4 < u /\ labelled key = false /\ e = KeyError key)
  \/ (7 # 10 < CPUCost.normalized cpu
      /\ has_key (LedgerCost.breakdown ledger) "read_entries" = false
      /\ e = KeyError "read_entries").
Proof.
  rewrite generate_hints_unfold. intro H.
  destruct (ledger_hints_loop (LedgerCost.breakdown ledger) _)
    as [hints | e'] eqn:El.
  - right. cbn [bind] in H.
    destruct (Qltb_spec (7 # 10) (CPUCost.normalized cpu)) as [Hc | Hc].
    + unfold has_key.
      destruct (dict_get (LedgerCost.breakdown ledger) "read_entries")
        as [r | e'] eqn:Er.
      * cbn [bind] in H. destruct (Qltb (1 # 2) r); discriminate H.
      * cbn [bind] in H. injection H as <-.
        rewrite (dict_get_error _ _ _ Er). now repeat split.
    + discriminate H.
  - left. cbn [bind] in H. injection H as <-.
    exact (ledger_hints_loop_error _ _ _ El).
Qed.

Lemma generate_hints_raises_only_KeyError_witness :
  generate_hints (CPUCost.mk 0 (3 # 4) 0 0)
    (MemoryCost.mk 0 0 {| scale := 100; exponent := 0 |})
    (LedgerCost.mk 0 0 [("read_bytes", 1 # 10)]%string)
  = Err (KeyError "read_entries")
  /\ generate_hints (CPUCost.mk 0 (1 # 2) 0 0)
       (MemoryCost.mk 0 0 {| scale := 100; exponent := 0 |})
       (LedgerCost.mk 0 0 [("storage", 9 # 10)]%string)
     = Err (KeyError "storage")
  /\ ((exists key u,
          In (key, u) [("read_bytes", 1 # 10)]%string
          /\ 3 # 4 < u /\ labelled key = false
          /\ KeyError "read_entries" = KeyError key)
      \/ (7 # 10 < 3 # 4
          /\ has_key [("read_bytes", 1 # 10)]%string "read_entries" = false
          /\ KeyError "read_entries" = KeyError "read_entries")).
Proof.
  split; [reflexivity | split; [reflexivity |]].
  apply (generate_hints_raises_only_KeyError
           (CPUCost.mk 0 (3 # 4) 0 0)
           (MemoryCost.mk 0 0 {| scale := 100; exponent := 0 |})
           (LedgerCost.mk 0 0 [("read_bytes", 1 # 10)]%string)).
  reflexivity.
Defined.

(** X14. [generate_hints] returns a list whenever every breakdown item
    above 0.75 has a labelled key and, for a CPU utilization above 0.7,
    the breakdown has the key ['read_entries'] (the lookup is not made at
    all for a CPU utilization of 0.7 or less).  The list is never empty
    and has at most four messages more than the breakdown has items. *)
Theorem generate_hints_succeeds
  (cpu : CPUCost.t) (mem : MemoryCost.t) (ledger : LedgerCost.t) :
  (forall key u, In (key, u) (LedgerCost.breakdown ledger) ->
                 3 # 4 < u -> labelled key = true) ->
  (7 # 10 < CPUCost.normalized cpu ->
   has_key (LedgerCost.breakdown ledger) "read_entries" = true) ->
  exists hints : list string,
    generate_hints cpu mem ledger = Ok hints
    /\ hints <> []
    /\ (List.length hints
        <= 4 + List.length (LedgerCost.breakdown ledger))%nat.
Proof.
  intros Hl Hr. rewrite generate_hints_unfold.
  rewrite (ledger_hints_loop_labelled _ _ Hl). cbn [bind].
  pose proof (rules_before_loop_length cpu mem) as L1.
  pose proof (ledger_loop_hints_length (LedgerCost.breakdown ledger)) as L2.
  set (before := (rule_cpu cpu ++ rule_ledger_pressure cpu ++ rule_memory mem)%list) in *.
  set (looped := ledger_loop_hints (LedgerCost.breakdown ledger)) in *.
  assert (L : (List.length (before ++ looped)
               <= 3 + List.length (LedgerCost.breakdown ledger))%nat)
    by (rewrite length_app; lia).
  assert (Hfinal : forall hints : list string,
             (List.length hints
              <= 4 + List.length (LedgerCost.breakdown ledger))%nat ->
             exists hints' : list string,
               Ok (match hints with [] => [hint_excellent] | _ :: _ => hints end)
               = Ok hints'
               /\ hints' <> []
               /\ (List.length hints'
                   <= 4 + List.length (LedgerCost.breakdown ledger))%nat).
  { intros hints Hlen. eexists. split; [reflexivity |].
    destruct hints; [split; [discriminate | simpl; lia] |].
    split; [discriminate | exact Hlen]. }
  destruct (Qltb_spec (7 # 10) (CPUCost.normalized cpu)) as [Hc | Hc].
  - specialize (Hr Hc). unfold has_key in Hr.
    destruct (dict_get (LedgerCost.breakdown ledger) "read_entries")
      as [r |]; [| discriminate Hr].
    cbn [bind]. destruct (Qltb (1 # 2) r); cbn [bind]; apply Hfinal.
    + rewrite length_app. simpl. lia.
    + lia.
  - cbn [bind]. apply Hfinal. lia.
Qed.

Lemma generate_hints_succeeds_witness :
  exists hints : list string,
    generate_hints (CPUCost.mk 0 (1 # 2) 0 0)
      (MemoryCost.mk 0 0 {| scale := 100; exponent := 0 |})
      (LedgerCost.mk 0 0 [("bandwidth", 9 # 10); ("storage", 1 # 10)]%string)
    = Ok hints
    /\ hints <> [].
Proof.
  destruct (generate_hints_succeeds (CPUCost.mk 0 (1 # 2) 0 0)
              (MemoryCost.mk 0 0 {| scale := 100; exponent := 0 |})
              (LedgerCost.mk 0 0
                 [("bandwidth", 9 # 10); ("storage", 1 # 10)]%string))
    as (hints & E & Hne & _).
  - intros key u [H | [H | []]] Hu; injection H as <- <-.
    + reflexivity.
    + discriminate Hu.
  - intro H. discriminate H.
  - exists hints. split; assumption.
Defined.

(* ------------------------------------------------------------------------- *)
(** ** Which rule a hint message comes from *)

Lemma in_rule_cpu (cpu : CPUCost.t) (m : string) :
  In m (rule_cpu cpu)
  <-> (4 # 5 < CPUCost.normalized cpu
       /\ m = hint_cpu_critical (CPUCost.normalized cpu))
      \/ (CPUCost.normalized cpu <= 4 # 5 /\ 3 # 5 < CPUCost.normalized cpu
          /\ m = hint_cpu_high).
Proof.
  unfold rule_cpu.
  destruct (Qltb_spec (4 # 5) (CPUCost.normalized cpu)) as [H1 | H1];
    [| destruct (Qltb_spec (3 # 5) (CPUCost.normalized cpu)) as [H2 | H2]];
    simpl; split.
  - intros [<- | []]. left. now split.
  - intros [[_ ->] | [H _]]; [now left | exfalso; qlra].
  - intros [<- | []]. right. repeat split; [| assumption]. now apply Qnot_lt_le.
  - intros [[H _] | [_ [_ ->]]]; [contradiction | now left].
  - contradiction.
  - intros [[H _] | [_ [H _]]]; contradiction.
Qed.

Lemma in_rule_ledger_pressure (cpu : CPUCost.t) (m : string) :
  In m (rule_ledger_pressure cpu)
  <-> 1 # 2 < CPUCost.ledger_pressure cpu
      /\ m = hint_ledger_pressure (CPUCost.ledger_pressure cpu).
Proof.
  unfold rule_ledger_pressure.
  destruct (Qltb_spec (1 # 2) (CPUCost.ledger_pressure cpu)) as [H | H];
    simpl; split.
  - intros [<- | []]. now split.
  - intros [_ ->]. now left.
  - contradiction.
  - intros [H' _]. contradiction.
Qed.

Lemma in_rule_memory (mem : MemoryCost.t) (m : string) :
  In m (rule_memory mem)
  <-> (7 # 10 < MemoryCost.normalized mem
       /\ m = hint_memory_critical (MemoryCost.normalized mem))
      \/ (MemoryCost.normalized mem <= 7 # 10 /\ 1 # 2 < MemoryCost.normalized mem
          /\ m = hint_memory_moderate).
Proof.
  unfold rule_memory.
  destruct (Qltb_spec (7 # 10) (MemoryCost.normalized mem)) as [H1 | H1];
    [| destruct (Qltb_spec (1 # 2) (MemoryCost.normalized mem)) as [H2 | H2]];
    simpl; split.
  - intros [<- | []]. left. now split.
  - intros [[_ ->] | [H _]]; [now left | exfalso; qlra].
  - intros [<- | []]. right. repeat split; [| assumption]. now apply Qnot_lt_le.
  - intros [[H _] | [_ [_ ->]]]; [contradiction | now left].
  - contradiction.
  - intros [[H _] | [_ [H _]]]; contradiction.
Qed.

Lemma in_rule_ledger_dimension (ledger : LedgerCost.t) (dim m : string) :
  In m (rule_ledger_dimension ledger dim)
  <-> 3 # 4 < dimension_utilization ledger dim
      /\ m = hint_ledger_high (dimension_label dim).
Proof.
  unfold rule_ledger_dimension.
  destruct (Qltb_spec (3 # 4) (dimension_utilization ledger dim)) as [H | H];
    simpl; split.
  - intros [<- | []]. now split.
  - intros [_ ->]. now left.
  - contradiction.
  - intros [H' _]. contradiction.
Qed.

Lemma in_rule_cpu_reads (cpu : CPUCost.t) (ledger : LedgerCost.t) (m : string) :
  In m (rule_cpu_reads cpu ledger)
  <-> 7 # 10 < CPUCost.normalized cpu
      /\ 1 # 2 < dimension_utilization ledger "read_entries"
      /\ m = hint_cpu_reads.
Proof.
  unfold rule_cpu_reads.
  destruct (Qltb_spec (7 # 10) (CPUCost.normalized cpu)) as [H1 | H1];
    destruct (Qltb_spec (1 # 2) (dimension_utilization ledger "read_entries"))
      as [H2 | H2];
    simpl; split;
    try contradiction;
    try (intros [<- | []]; now repeat split);
    try (intros (? & ? & ->); now left);
    intros (? & ? & _); contradiction.
Qed.

Lemma in_fired_rules
  (cpu : CPUCost.t) (mem : MemoryCost.t) (ledger : LedgerCost.t) (m : string) :
  In m (fired_rules cpu mem ledger)
  <-> In m (rule_cpu cpu)
      \/ In m (rule_ledger_pressure cpu)
      \/ In m (rule_memory mem)
      \/ (exists dim, In dim ledger_dimensions
                      /\ In m (rule_ledger_dimension ledger dim))
      \/ In m (rule_cpu_reads cpu ledger).
Proof.
  unfold fired_rules. rewrite !in_app_iff, in_flat_map. reflexivity.
Qed.

(** The tags of the eight kinds of messages. *)
Lemma hint_tag_cpu_critical (x : Q) :
  hint_tag (hint_cpu_critical x) = (Some "C", Some "R", Some "C")%char.
Proof. reflexivity. Qed.

Lemma hint_tag_cpu_high :
  hint_tag hint_cpu_high = (Some "H", Some "I", Some "O")%char.
Proof. reflexivity. Qed.

Lemma hint_tag_ledger_pressure (p : Q) :
  hint_tag (hint_ledger_pressure p) = (Some "H", Some "i", Some "r")%char.
Proof. reflexivity. Qed.

Lemma hint_tag_memory_critical (x : Q) :
  hint_tag (hint_memory_critical x) = (Some "C", Some "R", Some "M")%char.
Proof. reflexivity. Qed.

Lemma hint_tag_memory_moderate :
  hint_tag hint_memory_moderate = (Some "M", Some "O", Some "e")%char.
Proof. reflexivity. Qed.

Lemma hint_tag_cpu_reads :
  hint_tag hint_cpu_reads = (Some "T", Some "I", Some "C")%char.
Proof. reflexivity. Qed.

Lemma hint_tag_excellent :
  hint_tag hint_excellent = (Some "E", Some "x", Some "r")%char.
Proof. reflexivity. Qed.

Lemma hint_tag_ledger_high (dim : string) :
  In dim ledger_dimensions ->
  exists ch : ascii,
    hint_tag (hint_ledger_high (dimension_label dim))
    = (Some "H"%char, Some "I"%char, Some ch)
    /\ ch <> "O"%char.
Proof.
  unfold ledger_dimensions. simpl.
  intros [<- | [<- | [<- | [<- | [<- | []]]]]];
    eexists; (split; [reflexivity | discriminate]).
Qed.

(** A message with the tag of a kind comes from the rule of that kind. *)
Lemma fired_rules_by_tag
  (cpu : CPUCost.t) (mem : MemoryCost.t) (ledger : LedgerCost.t) (m : string) :
  In m (fired_rules cpu mem ledger) ->
  (hint_tag m = (Some "C", Some "R", Some "C")%char ->
   4 # 5 < CPUCost.normalized cpu)
  /\ (hint_tag m = (Some "H", Some "I", Some "O")%char ->
      CPUCost.normalized cpu <= 4 # 5 /\ 3 # 5 < CPUCost.normalized cpu)
  /\ (hint_tag m = (Some "H", Some "i", Some "r")%char ->
      1 # 2 < CPUCost.ledger_pressure cpu)
  /\ (hint_tag m = (Some "C", Some "R", Some "M")%char ->
      7 # 10 < MemoryCost.normalized mem)
  /\ (hint_tag m = (Some "M", Some "O", Some "e")%char ->
      MemoryCost.normalized mem <= 7 # 10 /\ 1 # 2 < MemoryCost.normalized mem)
  /\ (hint_tag m = (Some "T", Some "I", Some "C")%char ->
      7 # 10 < CPUCost.normalized cpu
      /\ 1 # 2 < dimension_utilization ledger "read_entries").
Proof.
  rewrite in_fired_rules, in_rule_cpu, in_rule_ledger_pressure, in_rule_memory,
    in_rule_cpu_reads.
  intros [[[H ->] | [H1 [H2 ->]]]
         | [[H ->]
           | [[[H ->] | [H1 [H2 ->]]]
             | [[dim [Hd Hm]] | [H1 [H2 ->]]]]]].
  all: try (apply in_rule_ledger_dimension in Hm; destruct Hm as [Hu ->];
            destruct (hint_tag_ledger_high dim Hd) as (ch & -> & Hch)).
  all: rewrite ?hint_tag_cpu_critical, ?hint_tag_cpu_high,
         ?hint_tag_ledger_pressure, ?hint_tag_memory_critical,
         ?hint_tag_memory_moderate, ?hint_tag_cpu_reads.
  all: repeat match goal with |- _ /\ _ => split end; intro E;
         try discriminate E; try assumption; try (split; assumption).
  all: injection E as E; contradiction.
Qed.

Lemma generate_hints_members
  (cpu : CPUCost.t) (mem : MemoryCost.t) (ledger : LedgerCost.t) :
  dict_keys (LedgerCost.breakdown ledger) = ledger_dimensions ->
  exists hints : list string,
    generate_hints cpu mem ledger = Ok hints
    /\ (fired_rules cpu mem ledger = [] -> hints = [hint_excellent])
    /\ (fired_rules cpu mem ledger <> [] -> hints = fired_rules cpu mem ledger)
    /\ (forall m, In m (fired_rules cpu mem ledger) -> In m hints)
    /\ (forall m, In m hints -> m <> hint_excellent ->
                  In m (fired_rules cpu mem ledger)).
Proof.
  intro Hk. rewrite (generate_hints_spec cpu mem ledger Hk).
  eexists. split; [reflexivity |].
  destruct (fired_rules cpu mem ledger) as [| h t] eqn:E.
  - repeat match goal with |- _ /\ _ => split end.
    + reflexivity.
    + intro H. now contradiction H.
    + intros m [].
    + intros m [<- | []] H. now contradiction H.
  - repeat match goal with |- _ /\ _ => split end.
    + discriminate.
    + reflexivity.
    + auto.
    + auto.
Qed.

(* ------------------------------------------------------------------------- *)
(** ** Hints and scores *)






Lemma not_excellent_by_tag (m : string) :
  fst (fst (hint_tag m)) <> Some "E"%char -> m <> hint_excellent.
Proof.
  intros H ->. apply H. reflexivity.
Qed.



(** X16. The cross-dimension TIP never stands alone: for a breakdown with
    the five dimensions, whenever it is given it is the last hint and the
    first hint is the CRITICAL or the HIGH CPU hint. *)
Theorem cpu_reads_tip_follows_cpu_hint
  (cpu : CPUCost.t) (mem : MemoryCost.t) (ledger : LedgerCost.t) :
  dict_keys (LedgerCost.breakdown ledger) = ledger_dimensions ->
  exists hints : list string,
    generate_hints cpu mem ledger = Ok hints
    /\ (In hint_cpu_reads hints ->
        exists (first : string) (middle : list string),
          hints = (first :: middle ++ [hint_cpu_reads])%list
          /\ (first = hint_cpu_critical (CPUCost.normalized cpu)
              \/ first = hint_cpu_high)).
Proof.
  intro Hk.
  destruct (generate_hints_members cpu mem ledger Hk)
    as (hints & E & _ & Hne & _ & Hout).
  exists hints. split; [exact E |].
  intro H. apply Hout in H; [| apply not_excellent_by_tag; discriminate].
  assert (Hf : fired_rules cpu mem ledger <> []) by (intro E0; now rewrite E0 in H).
  rewrite (Hne Hf).
  destruct (fired_rules_by_tag _ _ _ _ H) as (_ & _ & _ & _ & _ & H').
  destruct (H' eq_refl) as [Hc Hr].
  unfold fired_rules, rule_cpu, rule_cpu_reads.
  apply Qltb_true in Hc, Hr. rewrite Hc, Hr. cbn [andb].
  apply Qltb_true in Hc.
  destruct (Qltb_spec (4 # 5) (CPUCost.normalized cpu)) as [H1 | H1].
  - eexists. eexists. split; [| left; reflexivity].
    cbn [app]. rewrite !app_assoc. reflexivity.
  - assert (H2 : Qltb (3 # 5) (CPUCost.normalized cpu) = true)
      by (apply Qltb_true; qlra).
    rewrite H2.
    eexists. eexists. split; [| right; reflexivity].
    cbn [app]. rewrite !app_assoc. reflexivity.
Qed.

Lemma cpu_reads_tip_follows_cpu_hint_witness :
  exists hints : list string,
    generate_hints (CPUCost.mk 0 (3 # 4) 0 0)
      (MemoryCost.mk 0 0 {| scale := 100; exponent := 0 |})
      (LedgerCost.mk 0 (12 # 100)
         [("read_entries", 6 # 10); ("read_bytes", 0); ("write_entries", 0);
          ("write_bytes", 0); ("bandwidth", 0)]%string)
    = Ok hints
    /\ exists (first : string) (middle : list string),
         hints = (first :: middle ++ [hint_cpu_reads])%list
         /\ (first = hint_cpu_critical (3 # 4) \/ first = hint_cpu_high).
Proof.
  destruct (cpu_reads_tip_follows_cpu_hint (CPUCost.mk 0 (3 # 4) 0 0)
              (MemoryCost.mk 0 0 {| scale := 100; exponent := 0 |})
              (LedgerCost.mk 0 (12 # 100)
                 [("read_entries", 6 # 10); ("read_bytes", 0);
                  ("write_entries", 0); ("write_bytes", 0);
                  ("bandwidth", 0)]%string))
    as (hints & E & H).
  - reflexivity.
  - exists hints. split; [exact E |].
    apply H. cbv in E. injection E as <-. right. left. reflexivity.
Defined.

(* ------------------------------------------------------------------------- *)
(** ** Hints, scores and safety violations of one analysis *)

Lemma score_dimension_above_margin (u : Q) :
  95 # 100 < u -> (score_dimension u <= 12)%Z.
Proof.
  intro H.
  assert (Hle : 95 # 100 <= u) by qlra.
  pose proof (score_dimension_antitone _ _ Hle) as Ha.
  change (score_dimension (95 # 100)) with 12%Z in Ha. exact Ha.
Qed.

Lemma breakdown_item_utilization (ledger : LedgerCost.t) (dim : string) (u : Q) :
  dict_keys (LedgerCost.breakdown ledger) = ledger_dimensions ->
  In (dim, u) (LedgerCost.breakdown ledger) ->
  In dim ledger_dimensions /\ dimension_utilization ledger dim = u.
Proof.
  intros Hk Hin. split.
  - rewrite <- Hk. unfold dict_keys.
    change dim with (fst (dim, u)). now apply in_map.
  - unfold dimension_utilization. rewrite (dict_get_in _ dim u).
    + reflexivity.
    + rewrite Hk. exact NoDup_ledger_dimensions.
    + exact Hin.
Qed.

Lemma violation_cpu_not_ledger (dim : string) :
  violation_cpu <> violation_ledger dim.
Proof.
  intro H. apply (f_equal first_char) in H.
  rewrite first_char_violation_ledger in H. discriminate H.
Qed.

Lemma violation_memory_not_ledger (dim : string) :
  violation_memory <> violation_ledger dim.
Proof.
  intro H. apply (f_equal first_char) in H.
  rewrite first_char_violation_ledger in H. discriminate H.
Qed.

(** X17. Every safety violation of an analysis comes with the strongest
    hint of its dimension: a CPU violation with the CRITICAL CPU hint and
    a CPU score of at most 12, a memory violation with the CRITICAL memory
    hint and a memory score of at most 12, and a violation of a ledger
    dimension with the HIGH hint of that dimension. *)
Theorem safety_violation_has_critical_hint
  (now : Z) (sim : SimulationResult) (c : SorobanConfig) (a : Analysis.t) :
  analyze_transaction now sim c = Ok a ->
  let cpu := Costs.cpu (Analysis.costs a) in
  let mem := Costs.memory (Analysis.costs a) in
  (In violation_cpu (Analysis.safety_violations a) ->
   In (hint_cpu_critical (CPUCost.normalized cpu)) (Analysis.hints a)
   /\ (Scores.cpu (Analysis.scores a) <= 12)%Z)
  /\ (In violation_memory (Analysis.safety_violations a) ->
      In (hint_memory_critical (MemoryCost.normalized mem)) (Analysis.hints a)
      /\ (Scores.memory (Analysis.scores a) <= 12)%Z)
  /\ (forall dim : string,
        In (violation_ledger dim) (Analysis.safety_violations a) ->
        In (hint_ledger_high (dimension_label dim)) (Analysis.hints a)).
Proof.
  intro H.
  destruct (analyze_transaction_inv _ _ _ _ H)
    as (cpu & mem & ledger & hints & _ & _ & El & Eh & ->).
  cbn [Analysis.costs Analysis.hints Analysis.safety_violations Analysis.scores
       Costs.cpu Costs.memory compute_scores Scores.cpu Scores.memory].
  pose proof (compute_ledger_cost_keys _ _ _ El) as Hk.
  destruct (generate_hints_members cpu mem ledger Hk)
    as (hints' & Eh' & _ & _ & Hin & _).
  rewrite Eh in Eh'. injection Eh' as <-.
  split; [| split].
  - intro Hv. apply in_safety_check in Hv.
    destruct Hv as [[_ Hu] | [[Hv _] | (dim & u & _ & _ & Hv)]].
    + split; [| now apply score_dimension_above_margin].
      apply Hin, in_fired_rules. left. apply in_rule_cpu. left.
      split; [qlra | reflexivity].
    + discriminate Hv.
    + exfalso. exact (violation_cpu_not_ledger dim Hv).
  - intro Hv. apply in_safety_check in Hv.
    destruct Hv as [[Hv _] | [[_ Hu] | (dim & u & _ & _ & Hv)]].
    + discriminate Hv.
    + split; [| now apply score_dimension_above_margin].
      apply Hin, in_fired_rules. right. right. left.
      apply in_rule_memory. left. split; [qlra | reflexivity].
    + exfalso. exact (violation_memory_not_ledger dim Hv).
  - intros dim Hv. apply in_safety_check in Hv.
    destruct Hv as [[Hv _] | [[Hv _] | (dim' & u & Hi & Hu & Hv)]].
    + exfalso. symmetry in Hv. exact (violation_cpu_not_ledger dim Hv).
    + exfalso. symmetry in Hv. exact (violation_memory_not_ledger dim Hv).
    + apply violation_ledger_inj in Hv. subst dim'.
      destruct (breakdown_item_utilization ledger dim u Hk Hi) as [Hd Hdu].
      apply Hin, in_fired_rules. right. right. right. left.
      exists dim. split; [exact Hd |].
      apply in_rule_ledger_dimension. rewrite Hdu.
      split; [qlra | reflexivity].
Qed.

Lemma safety_violation_has_critical_hint_witness :
  exists a : Analysis.t,
    analyze_transaction 0 safety_violation_sim default_config = Ok a
    /\ In (hint_cpu_critical (96 # 100)) (Analysis.hints a)
    /\ (Scores.cpu (Analysis.scores a) <= 12)%Z.
Proof.
  destruct (analyze_transaction_ok 0 safety_violation_sim default_config)
    as [a E].
  - unfold nonzero, divisors. simpl. repeat constructor; discriminate.
  - discriminate.
  - exists a. split; [exact E |].
    destruct (safety_violation_has_critical_hint _ _ _ _ E) as (Hc & _ & _).
    assert (Ha : analyze_transaction 0 safety_violation_sim default_config
                 = Ok a) by exact E.
    cbv in Ha. injection Ha as <-.
    apply Hc. left. reflexivity.
Defined.





(* ------------------------------------------------------------------------- *)
(** ** The ledger pressure hint *)





(* ------------------------------------------------------------------------- *)
(** ** The list of safety violations *)

(** X20. The safety violations of an analysis are pairwise distinct and
    at most seven: one for the CPU, one for the memory and one for each of
    the five ledger dimensions. *)
Theorem safety_violations_distinct
  (now : Z) (sim : SimulationResult) (c : SorobanConfig) (a : Analysis.t) :
  analyze_transaction now sim c = Ok a ->
  NoDup (Analysis.safety_violations a)
  /\ (List.length (Analysis.safety_violations a) <= 7)%nat.
Proof.
  intro H.
  destruct (analyze_transaction_inv _ _ _ _ H)
    as (cpu & mem & ledger & hints & _ & _ & El & _ & ->).
  cbn [Analysis.safety_violations].
  destruct (compute_ledger_cost_inv sim c ledger El)
    as (_ & u1 & u2 & u3 & u4 & u5 & _ & _ & _ & _ & _ & Hb & _).
  rewrite safety_check_list, Hb.
  unfold ledger_loop_violations. cbn [flat_map fst snd].
  destruct (Qltb (95 # 100) (CPUCost.normalized cpu));
    destruct (Qltb (95 # 100) (MemoryCost.normalized mem));
    destruct (Qltb (95 # 100) u1); destruct (Qltb (95 # 100) u2);
    destruct (Qltb (95 # 100) u3); destruct (Qltb (95 # 100) u4);
    destruct (Qltb (95 # 100) u5);
    (split; [| simpl; lia]);
    cbn [app];
    repeat (constructor;
            [cbn [In]; intro Hin;
             repeat (destruct Hin as [Hin | Hin]; [discriminate Hin |]);
             exact Hin |]);
    constructor.
Qed.

Lemma safety_violations_distinct_witness :
  exists a : Analysis.t,
    analyze_transaction 0 safety_violation_sim default_config = Ok a
    /\ NoDup (Analysis.safety_violations a)
    /\ (List.length (Analysis.safety_violations a) <= 7)%nat.
Proof.
  destruct (analyze_transaction_ok 0 safety_violation_sim default_config)
    as [a E].
  - unfold nonzero, divisors. simpl. repeat constructor; discriminate.
  - discriminate.
  - exists a. split; [exact E |].
    exact (safety_violations_distinct 0 safety_violation_sim default_config a E).
Defined.

(* ------------------------------------------------------------------------- *)
(** ** Which exception ends an analysis *)



(* ------------------------------------------------------------------------- *)
(** ** Configuration fields the analysis does not read *)

(** X22. The five ledger-wide I/O and size limits of the configuration
    ([ledgerMaxReadLedgerEntries], [ledgerMaxReadBytes],
    [ledgerMaxWriteLedgerEntries], [ledgerMaxWriteBytes],
    [ledgerMaxTxsSizeBytes]) influence nothing: replacing them by any
    values leaves the three costs and the whole analysis unchanged.  The
    version string is only copied into the result. *)
Theorem ledger_wide_limits_unused
  (now : Z) (sim : SimulationResult) (c : SorobanConfig)
  (max_read_entries max_read_bytes max_write_entries max_write_bytes
   max_txs_size : Z) :
  let c' := with_ledger_wide_limits c max_read_entries max_read_bytes
              max_write_entries max_write_bytes max_txs_size in
  compute_cpu_cost sim c' = compute_cpu_cost sim c
  /\ compute_memory_cost sim c' = compute_memory_cost sim c
  /\ compute_ledger_cost sim c' = compute_ledger_cost sim c
  /\ analyze_transaction now sim c' = analyze_transaction now sim c
  /\ (forall a : Analysis.t,
        analyze_transaction now sim c = Ok a ->
        Analysis.config_version a = version c).
Proof.
  intro c'.
  repeat match goal with |- _ /\ _ => split end; try reflexivity.
  intros a H.
  destruct (analyze_transaction_inv _ _ _ _ H)
    as (cpu & mem & ledger & hints & _ & _ & _ & _ & ->).
  reflexivity.
Qed.

(* ------------------------------------------------------------------------- *)
(** ** The numbers shown in the hint messages *)














